(** * restarter: health evaluation and pod reconciliation

    A shallow embedding of the [health] package (the layered pod health
    checker) and of the [controller] package (the pod reconciler) of
    ealebed/restarter, followed by the properties of the specification
    that are stated about them.

    Go values are modelled as follows:
    - Go strings are [string]; the Kubernetes string enums ([PodPhase],
      [PodConditionType], [ConditionStatus]) stay strings, with the
      constants of the API;
    - [int] and [time.Duration] are [Z] (a duration counts nanoseconds);
    - a Go [error] is the inductive [error]; a pair [(v, err)] returned by
      a library call is a [result], the pair [(bool, error)] returned by
      the checker stays a pair with an optional error;
    - label sets are [gmap string string];
    - every call that leaves the process (HTTP, TCP, exec stream, API
      server) is answered by a [World] and recorded in a trace. *)

From Stdlib Require Import ZArith String List Bool Lia Sorted.
From stdpp Require Import base option list gmap strings pretty.

(** ** Go errors *)

Inductive StatusReason :=
| StatusReasonUnknown
| StatusReasonNotFound
| StatusReasonForbidden
| StatusReasonTimeout
| StatusReasonInternalError.

(** [errorString] is an error made by [fmt.Errorf] without [%w],
    [wrapError] one made with [": %w"], [StatusError] an error answered by
    the API server. *)
Inductive error :=
| errorString (msg : string)
| wrapError (msg : string) (inner : error)
| StatusError (reason : StatusReason) (msg : string).

Inductive result (A : Type) :=
| Ok (a : A)
| Err (e : error).
Arguments Ok {A} a.
Arguments Err {A} e.

Module errors.
(** [errors.IsNotFound] looks through wrapped errors for an API status
    whose reason is NotFound. *)
Fixpoint IsNotFound (err : error) : bool :=
  match err with
  | errorString _ => false
  | wrapError _ inner => IsNotFound inner
  | StatusError StatusReasonNotFound _ => true
  | StatusError _ _ => false
  end.
End errors.

(** ** Kubernetes objects read by the program *)

Module corev1.
Abbreviation PodPhase := string (only parsing).
Definition PodPending : PodPhase := "Pending".
Definition PodRunning : PodPhase := "Running".
Definition PodSucceeded : PodPhase := "Succeeded".
Definition PodFailed : PodPhase := "Failed".
Definition PodUnknown : PodPhase := "Unknown".

Abbreviation PodConditionType := string (only parsing).
Definition PodReady : PodConditionType := "Ready".
Definition PodScheduled : PodConditionType := "PodScheduled".
Definition PodInitialized : PodConditionType := "Initialized".
Definition ContainersReady : PodConditionType := "ContainersReady".

Abbreviation ConditionStatus := string (only parsing).
Definition ConditionTrue : ConditionStatus := "True".
Definition ConditionFalse : ConditionStatus := "False".
Definition ConditionUnknown : ConditionStatus := "Unknown".

Record PodCondition := {
  Type_ : PodConditionType;
  Status_ : ConditionStatus
}.

Record ContainerStateWaiting := { Reason : string; Message : string }.
Record ContainerStateRunning := { StartedAt : Z }.
Record ContainerStateTerminated := { ExitCode : Z }.

(** The three members are pointers in Go; [None] is [nil]. *)
Record ContainerState := {
  Waiting : option ContainerStateWaiting;
  Running : option ContainerStateRunning;
  Terminated : option ContainerStateTerminated
}.

Record ContainerStatus := {
  Ready : bool;
  State : ContainerState
}.

Record Container := { Container_Name : string }.

Record PodSpec := { Containers : list Container }.

Record PodStatus := {
  Phase : PodPhase;
  Conditions : list PodCondition;
  PodIP : string;
  ContainerStatuses : list ContainerStatus
}.

Record Pod := {
  Name : string;
  Namespace : string;
  Labels : gmap string string;
  Spec : PodSpec;
  Status : PodStatus
}.
End corev1.

(** ** Label selectors

    [k8s.io/apimachinery/pkg/labels] is a library of the program, not
    part of it. A selector is the list of its requirements. The
    requirement written [key=value] is kept as such; requirements made
    with any other operator are kept as the predicate they denote. *)

Module labels.
Inductive Requirement :=
| EqualityTerm (key value : string)
| OtherTerm (holds : gmap string string -> bool).

(** Modelled from the spec: [Requirement.Matches] of the labels library
    is not in the repository. An equality term holds when its key is
    present in the label set with exactly its value. *)
Definition Requirement_Matches (r : Requirement) (ls : gmap string string) : bool :=
  match r with
  | EqualityTerm key value =>
      match ls !! key with
      | Some v => String.eqb v value
      | None => false
      end
  | OtherTerm holds => holds ls
  end.

Abbreviation Selector := (list Requirement) (only parsing).

(** Modelled from the spec: [Selector.Matches] of the labels library
    is not in the repository. Terms joined by commas are a conjunction:
    a selector matches when every one of its requirements holds. *)
Definition Matches (s : Selector) (ls : gmap string string) : bool :=
  forallb (fun r => Requirement_Matches r ls) s.
End labels.

Module metav1.
Record LabelSelectorRequirement := {
  Key : string;
  Operator : string;
  Values : list string
}.

Record LabelSelector := {
  MatchLabels : gmap string string;
  MatchExpressions : list LabelSelectorRequirement
}.
End metav1.

Module appsv1.
(** [Spec.Selector] is a pointer: [None] is [nil]. *)
Record StatefulSet := {
  StatefulSet_Name : string;
  StatefulSet_Namespace : string;
  Spec_Selector : option metav1.LabelSelector
}.
End appsv1.

Module types.
Record NamespacedName := { Namespace : string; Name : string }.
End types.

(** ** The outside world and the trace of calls *)

Inductive Layer := LayerHTTP | LayerTCP | LayerExec.

(** What [remotecommand] is asked to run: the [exec] subresource of a pod
    with the [PodExecOptions] of the request. *)
Record ExecRequest := {
  exec_Namespace : string;
  exec_Name : string;
  exec_Container : string;
  exec_Command : list string;
  exec_Stdout : bool;
  exec_Stderr : bool;
  exec_Timeout : Z
}.

(** The end of an exec stream: the stream broke, or the command exited
    with a code after writing its two outputs. *)
Inductive ExecOutcome :=
| StreamBroken (e : error)
| Exited (code : Z) (stdout stderr : string).

Inductive Event :=
| Enter (l : Layer)
| HTTPGet (url : string)
| TCPDial (address : string)
| ExecStream (req : ExecRequest)
| ClientGetPod (key : types.NamespacedName)
| ClientGetStatefulSet (key : types.NamespacedName)
| ClientDelete (namespace name : string)
| LogInfo (verbosity : Z) (msg : string)
| LogError (err : error) (msg : string).

(** The answers of everything outside the program: the network, the API
    server, and the library functions that build a request or an executor
    and read a selector. A reconcile asks each question at most once, so
    an answer per question is all it can see. *)
Record World := {
  http_NewRequest : string -> string -> result unit;
  http_Do : string -> result Z;
  net_Dial : Z -> string -> result unit;
  spdy_NewExecutor : ExecRequest -> result unit;
  spdy_Stream : ExecRequest -> ExecOutcome;
  api_GetPod : types.NamespacedName -> result corev1.Pod;
  api_GetStatefulSet : types.NamespacedName -> result appsv1.StatefulSet;
  api_Delete : corev1.Pod -> option error;
  labels_Parse : string -> result labels.Selector;
  metav1_LabelSelectorAsSelector : metav1.LabelSelector -> result labels.Selector
}.

(** A computation returns a value and the calls it made, in order. *)
Definition IO (A : Type) : Type := (A * list Event)%type.

Definition ret {A} (a : A) : IO A := (a, []).

Definition bind {A B} (m : IO A) (k : A -> IO B) : IO B :=
  let '(a, t1) := m in
  let '(b, t2) := k a in
  (b, t1 ++ t2).

Definition emit (e : Event) : IO unit := (tt, [e]).

Definition value {A} (m : IO A) : A := fst m.
Definition trace {A} (m : IO A) : list Event := snd m.

Notation "x <- m ;; k" := (bind m (fun x => k))
  (at level 100, m at next level, right associativity).
Notation "m ;; k" := (bind m (fun _ => k))
  (at level 100, right associativity).

Definition second : Z := 1000000000.

(** ** Package [health] *)

Module health.
Import corev1.

Record HTTPClient := { Timeout : Z }.

(** [k8sClient] and [restConfig] are [nil] until
    [SetKubernetesClient] is called. *)
Record Checker := {
  httpClient : HTTPClient;
  timeout : Z;
  k8sClient : option unit;
  restConfig : option unit
}.

Definition NewChecker (timeout : Z) : Checker :=
  {| httpClient := {| Timeout := timeout |};
     timeout := timeout;
     k8sClient := None;
     restConfig := None |}.

Definition SetKubernetesClient (c : Checker) (client config : unit) : Checker :=
  {| httpClient := httpClient c;
     timeout := timeout c;
     k8sClient := Some client;
     restConfig := Some config |}.

Record HealthCheckOptions := {
  HTTPCheckURL : string;
  ExecCommand : string;
  TCPPort : Z;
  ContainerName : string;
  ExpectedOutput : string
}.

(** [contains]: the loop over [i] from [0] to [len(s)-len(substr)]
    comparing the slice [s[i:i+len(substr)]] with [substr]. *)
Fixpoint contains_from (s substr : string) (i n : nat) : bool :=
  match n with
  | O => false
  | S n' =>
      if String.eqb (String.substring i (String.length substr) s) substr
      then true
      else contains_from s substr (S i) n'
  end.

Definition contains (s substr : string) : bool :=
  if (String.length s <? String.length substr)%nat then false
  else contains_from s substr 0
         (S (String.length s - String.length substr)).

(** Modelled from the spec: [StreamWithContext] of the remotecommand
    library is not in the repository. Its error is that of a broken
    stream, or the exit error made of a non-zero exit code. *)
Definition stream_err (o : ExecOutcome) : option error :=
  match o with
  | StreamBroken e => Some e
  | Exited code _ _ =>
      if (code =? 0)%Z then None
      else Some (errorString
                   ("command terminated with exit code " +:+ pretty code))
  end.

Definition stream_stdout (o : ExecOutcome) : string :=
  match o with
  | StreamBroken _ => ""
  | Exited _ stdout _ => stdout
  end.

Section Checks.
Variable w : World.
Variable c : Checker.

Definition checkHTTPHealth (pod : Pod) (healthCheckURL : string)
  : IO (bool * option error) :=
  emit (Enter LayerHTTP) ;;
  if String.eqb (PodIP (Status pod)) "" then
    ret (false, Some (errorString "pod IP is not available"))
  else
    let url := "http://" +:+ PodIP (Status pod) +:+ ":8080" +:+ healthCheckURL in
    match http_NewRequest w "GET" url with
    | Err err => ret (false, Some (wrapError "failed to create request" err))
    | Ok _ =>
        emit (HTTPGet url) ;;
        match http_Do w url with
        | Err _ => ret (false, None)
        | Ok StatusCode =>
            ret ((200 <=? StatusCode)%Z && (StatusCode <? 400)%Z, None)
        end
    end.

Definition checkTCPPort (pod : Pod) (port : Z) : IO (bool * option error) :=
  emit (Enter LayerTCP) ;;
  if String.eqb (PodIP (Status pod)) "" then
    ret (false, Some (errorString "pod IP is not available"))
  else
    let address := PodIP (Status pod) +:+ ":" +:+ pretty port in
    emit (TCPDial address) ;;
    match net_Dial w (timeout c) address with
    | Err _ => ret (false, None)
    | Ok _ => ret (true, None)
    end.

Definition checkExecCommand (pod : Pod)
    (command containerName expectedOutput : string)
  : IO (bool * option error) :=
  emit (Enter LayerExec) ;;
  match k8sClient c, restConfig c with
  | Some _, Some _ =>
      match Containers (Spec pod) with
      | [] => ret (false, Some (errorString "pod has no containers"))
      | first :: _ =>
          let container :=
            if String.eqb containerName "" then Container_Name first
            else containerName in
          let req :=
            {| exec_Namespace := Namespace pod;
               exec_Name := Name pod;
               exec_Container := container;
               exec_Command := ["sh"; "-c"; command];
               exec_Stdout := true;
               exec_Stderr := true;
               exec_Timeout := timeout c |} in
          match spdy_NewExecutor w req with
          | Err err =>
              ret (false, Some (wrapError "failed to create executor" err))
          | Ok _ =>
              emit (ExecStream req) ;;
              let outcome := spdy_Stream w req in
              match stream_err outcome with
              | Some _ => ret (false, None)
              | None =>
                  if negb (String.eqb expectedOutput "") then
                    let output := stream_stdout outcome in
                    if negb (String.eqb output expectedOutput)
                       && negb (contains output expectedOutput)
                    then ret (false, None)
                    else ret (true, None)
                  else ret (true, None)
              end
          end
      end
  | _, _ =>
      ret (false,
           Some (errorString "kubernetes client not configured for exec checks"))
  end.

(** The loop over [pod.Status.Conditions] of [IsPodHealthy]: [false]
    when it returns from the function, [true] when it runs through. *)
Fixpoint readyConditions (conditions : list PodCondition) : bool :=
  match conditions with
  | [] => true
  | condition :: rest =>
      if String.eqb (Type_ condition) PodReady then
        if negb (String.eqb (Status_ condition) ConditionTrue) then false
        else readyConditions rest
      else readyConditions rest
  end.

(** Layer 5 and the final [return true, nil]. *)
Definition execLayer (pod : Pod) (opts : HealthCheckOptions)
  : IO (bool * option error) :=
  if negb (String.eqb (ExecCommand opts) "") then
    r <- checkExecCommand pod (ExecCommand opts) (ContainerName opts)
           (ExpectedOutput opts) ;;
    match r with
    | (_, Some err) => ret (false, Some (wrapError "exec command check failed" err))
    | (healthy, None) =>
        if negb healthy then ret (false, None) else ret (true, None)
    end
  else ret (true, None).

(** Layer 4 and what follows it. *)
Definition tcpLayer (pod : Pod) (opts : HealthCheckOptions)
  : IO (bool * option error) :=
  if (0 <? TCPPort opts)%Z then
    r <- checkTCPPort pod (TCPPort opts) ;;
    match r with
    | (_, Some err) => ret (false, Some (wrapError "tcp port check failed" err))
    | (healthy, None) =>
        if negb healthy then ret (false, None) else execLayer pod opts
    end
  else execLayer pod opts.

(** Layer 3 and what follows it. *)
Definition httpLayer (pod : Pod) (opts : HealthCheckOptions)
  : IO (bool * option error) :=
  if negb (String.eqb (HTTPCheckURL opts) "") then
    r <- checkHTTPHealth pod (HTTPCheckURL opts) ;;
    match r with
    | (_, Some err) => ret (false, Some (wrapError "http health check failed" err))
    | (healthy, None) =>
        if negb healthy then ret (false, None) else tcpLayer pod opts
    end
  else tcpLayer pod opts.

Definition IsPodHealthy (pod : Pod) (opts : HealthCheckOptions)
  : IO (bool * option error) :=
  if negb (String.eqb (Phase (Status pod)) PodRunning) then ret (false, None)
  else if negb (readyConditions (Conditions (Status pod))) then ret (false, None)
  else httpLayer pod opts.

Definition IsPodHealthyLegacy (pod : Pod) (healthCheckURL : string)
  : IO (bool * option error) :=
  IsPodHealthy pod
    {| HTTPCheckURL := healthCheckURL; ExecCommand := ""; TCPPort := 0;
       ContainerName := ""; ExpectedOutput := "" |}.
End Checks.

(** The two loops of [CheckPodStatus], each [false] when it returns
    from the function. *)
Fixpoint conditionsLoop (conditions : list PodCondition) : bool :=
  match conditions with
  | [] => true
  | condition :: rest =>
      if (if String.eqb (Type_ condition) PodReady
          then negb (String.eqb (Status_ condition) ConditionTrue)
          else false)
      then false
      else if (if String.eqb (Type_ condition) PodScheduled
               then negb (String.eqb (Status_ condition) ConditionTrue)
               else false)
      then false
      else conditionsLoop rest
  end.

Fixpoint containerStatusesLoop (statuses : list ContainerStatus) : bool :=
  match statuses with
  | [] => true
  | containerStatus :: rest =>
      if negb (Ready containerStatus) then false
      else match Waiting (State containerStatus) with
           | Some _ => false
           | None => containerStatusesLoop rest
           end
  end.

Definition CheckPodStatus (c : Checker) (pod : Pod) : bool :=
  if negb (conditionsLoop (Conditions (Status pod))) then false
  else if negb (containerStatusesLoop (ContainerStatuses (Status pod))) then false
  else true.
End health.

(** ** Package [controller] *)

Module controller.
Import corev1.

(** [ctrl.Result] and [ctrl.Request] of controller-runtime. *)
Record Result := { Requeue : bool; RequeueAfter : Z }.

Definition Result_empty : Result := {| Requeue := false; RequeueAfter := 0 |}.

Record Request := { NamespacedName : types.NamespacedName }.

Record PodReconciler := {
  StatefulSetName : string;
  PodLabelSelector : string;
  Namespace : string;
  HealthChecker : health.Checker;
  HealthCheckOptions : health.HealthCheckOptions
}.

Section Reconciler.
Variable w : World.
Variable r : PodReconciler.

Definition belongsToStatefulSet (pod : Pod) : IO bool :=
  let statefulSetKey :=
    {| types.Namespace := Namespace r; types.Name := StatefulSetName r |} in
  emit (ClientGetStatefulSet statefulSetKey) ;;
  match api_GetStatefulSet w statefulSetKey with
  | Err err => emit (LogError err "Failed to get StatefulSet") ;; ret false
  | Ok statefulSet =>
      match appsv1.Spec_Selector statefulSet with
      | None => ret false
      | Some ls =>
          match metav1_LabelSelectorAsSelector w ls with
          | Err err => emit (LogError err "Failed to create selector") ;; ret false
          | Ok selector => ret (labels.Matches selector (Labels pod))
          end
      end
  end.

(** The second half of [matchesFilter]: the pod label selector. *)
Definition matchesLabelSelector (pod : Pod) : IO bool :=
  if negb (String.eqb (PodLabelSelector r) "") then
    match labels_Parse w (PodLabelSelector r) with
    | Err err =>
        emit (LogError err "Failed to parse pod label selector") ;; ret false
    | Ok selector =>
        if negb (labels.Matches selector (Labels pod)) then ret false
        else ret true
    end
  else ret true.

Definition matchesFilter (pod : Pod) : IO bool :=
  if negb (String.eqb (StatefulSetName r) "") then
    belongs <- belongsToStatefulSet pod ;;
    if negb belongs then ret false else matchesLabelSelector pod
  else matchesLabelSelector pod.

Definition Reconcile (req : Request) : IO (Result * option error) :=
  emit (ClientGetPod (NamespacedName req)) ;;
  match api_GetPod w (NamespacedName req) with
  | Err err =>
      if errors.IsNotFound err then ret (Result_empty, None)
      else ret (Result_empty, Some (wrapError "failed to get pod" err))
  | Ok pod =>
      matches <- matchesFilter pod ;;
      if negb matches then
        emit (LogInfo 1 "Pod does not match filter criteria, skipping") ;;
        ret (Result_empty, None)
      else
        emit (LogInfo 0 "Reconciling pod") ;;
        verdict <- health.IsPodHealthy w (HealthChecker r) pod
                     (HealthCheckOptions r) ;;
        match verdict with
        | (_, Some err) =>
            emit (LogError err "Failed to check pod health") ;;
            ret ({| Requeue := false; RequeueAfter := 10 * second |}, None)
        | (healthy, None) =>
            if negb healthy then
              emit (LogInfo 0 "Pod is unhealthy, triggering restart") ;;
              (if negb (health.CheckPodStatus (HealthChecker r) pod)
               then emit (LogInfo 0 "Pod status check failed, proceeding with restart")
               else ret tt) ;;
              emit (ClientDelete (corev1.Namespace pod) (Name pod)) ;;
              match api_Delete w pod with
              | Some err =>
                  if errors.IsNotFound err then ret (Result_empty, None)
                  else
                    emit (LogError err "Failed to delete pod") ;;
                    ret ({| Requeue := false; RequeueAfter := 10 * second |}, None)
              | None =>
                  emit (LogInfo 0 "Successfully triggered pod restart") ;;
                  ret (Result_empty, None)
              end
            else
              emit (LogInfo 1 "Pod is healthy") ;;
              ret (Result_empty, None)
        end
  end.
End Reconciler.

(** *** [SetupWithManager] *)

(** [client.Object]: what the watch hands to a predicate. *)
Inductive Object :=
| PodObject (pod : Pod)
| StatefulSetObject (set : appsv1.StatefulSet).

Definition GetNamespace (obj : Object) : string :=
  match obj with
  | PodObject pod => corev1.Namespace pod
  | StatefulSetObject set => appsv1.StatefulSet_Namespace set
  end.

Record ControllerOptions := { MaxConcurrentReconciles : Z }.

(** What [SetupWithManager] gives the controller builder: the predicates
    of [For(&corev1.Pod{}, ...)] and the options. *)
Record ControllerSpec := {
  predicates : list (Object -> bool);
  options : ControllerOptions
}.

Section Setup.
Variable w : World.
Variable r : PodReconciler.

(** The function of the first [NewPredicateFuncs]. *)
Definition namespacePredicate (obj : Object) : bool :=
  String.eqb (GetNamespace obj) (Namespace r).

(** The function of the second [NewPredicateFuncs]: the type assertion
    of [obj] to a pod fails for anything but a pod. *)
Definition labelPredicate (selector : labels.Selector) (obj : Object) : bool :=
  match obj with
  | PodObject pod => labels.Matches selector (Labels pod)
  | _ => false
  end.

(** [SetupWithManager] up to the call of the builder. *)
Definition controllerSpec : result ControllerSpec :=
  let predicates := [namespacePredicate] in
  if negb (String.eqb (PodLabelSelector r) "") then
    match labels_Parse w (PodLabelSelector r) with
    | Err err => Err (wrapError "failed to parse pod label selector" err)
    | Ok selector =>
        Ok {| predicates := predicates ++ [labelPredicate selector];
              options := {| MaxConcurrentReconciles := 1 |} |}
    end
  else
    Ok {| predicates := predicates;
          options := {| MaxConcurrentReconciles := 1 |} |}.

(** [complete] is the builder's [Complete(r)] for the manager at hand. *)
Definition SetupWithManager (complete : ControllerSpec -> option error)
  : option error :=
  match controllerSpec with
  | Err err => Some err
  | Ok spec => complete spec
  end.
End Setup.
End controller.

(** ** Package [main] *)

Module main.

(** The values of the command-line flags after [flag.Parse]. *)
Record Flags := {
  namespace : string;
  statefulSetName : string;
  podLabelSelector : string;
  healthCheckURL : string;
  healthCheckTimeout : Z;
  execCheckCommand : string;
  execCheckContainer : string;
  execCheckExpected : string;
  tcpCheckPort : Z
}.

(** [os.Getenv]: the value of the variable, empty when it is not set. *)
Definition Getenv (env : gmap string string) (key : string) : string :=
  default "" (env !! key).

Definition getEnv (env : gmap string string) (key defaultValue : string) : string :=
  let value := Getenv env key in
  if negb (String.eqb value "") then value else defaultValue.

(** [ParseDuration] is [time.ParseDuration]. *)
Definition mustParseDuration (ParseDuration : string -> result Z) (s : string) : Z :=
  match ParseDuration s with
  | Err _ => 5 * second
  | Ok d => d
  end.

(** [Atoi] is [strconv.Atoi]. *)
Definition mustParseInt (Atoi : string -> result Z) (s : string) : Z :=
  if String.eqb s "" then 0
  else match Atoi s with
       | Err _ => 0
       | Ok i => i
       end.

(** The defaults of the flags: the [var] block. *)
Definition flagDefaults (env : gmap string string)
    (ParseDuration Atoi : string -> result Z) : Flags :=
  {| namespace := getEnv env "NAMESPACE" "default";
     statefulSetName := getEnv env "STATEFULSET_NAME" "";
     podLabelSelector := getEnv env "POD_LABEL_SELECTOR" "";
     healthCheckURL := getEnv env "HEALTH_CHECK_URL" "";
     healthCheckTimeout :=
       mustParseDuration ParseDuration (getEnv env "HEALTH_CHECK_TIMEOUT" "5s");
     execCheckCommand := getEnv env "EXEC_CHECK_COMMAND" "";
     execCheckContainer := getEnv env "EXEC_CHECK_CONTAINER" "";
     execCheckExpected := getEnv env "EXEC_CHECK_EXPECTED" "";
     tcpCheckPort := mustParseInt Atoi (getEnv env "TCP_CHECK_PORT" "0") |}.

(** What the cluster and the framework answer at start-up:
    [ctrl.GetConfigOrDie] ([None] when it dies), [ctrl.NewManager],
    [kubernetes.NewForConfig], the builder's [Complete] and
    [mgr.Start]. *)
Record Startup := {
  GetConfigOrDie : option unit;
  NewManager : result unit;
  NewForConfig : result unit;
  Complete : controller.ControllerSpec -> option error;
  Start : option error
}.

(** How [main] ends: [os.Exit] before the manager is started, or the
    manager was started with a reconciler and [main] ended with the code
    given. *)
Inductive Outcome :=
| Exit (code : Z)
| Started (r : controller.PodReconciler) (code : Z).

(** [main] from the point where [flag.Parse] has returned with the
    values of the flags ([flag.Parse] itself ends the process on a
    malformed flag or on [-h]); the log lines are left out. *)
Definition main (w : World) (s : Startup) (flags : Flags) : Outcome :=
  if String.eqb (statefulSetName flags) "" && String.eqb (podLabelSelector flags) ""
  then Exit 1
  else
    match GetConfigOrDie s with
    | None => Exit 1
    | Some _ =>
        match NewManager s with
        | Err _ => Exit 1
        | Ok _ =>
            let healthChecker := health.NewChecker (healthCheckTimeout flags) in
            let setup (healthChecker : health.Checker) : Outcome :=
              let healthCheckOptions :=
                {| health.HTTPCheckURL := healthCheckURL flags;
                   health.ExecCommand := execCheckCommand flags;
                   health.TCPPort := tcpCheckPort flags;
                   health.ContainerName := execCheckContainer flags;
                   health.ExpectedOutput := execCheckExpected flags |} in
              let r :=
                {| controller.StatefulSetName := statefulSetName flags;
                   controller.PodLabelSelector := podLabelSelector flags;
                   controller.Namespace := namespace flags;
                   controller.HealthChecker := healthChecker;
                   controller.HealthCheckOptions := healthCheckOptions |} in
              match controller.SetupWithManager w r (Complete s) with
              | Some _ => Exit 1
              | None =>
                  match Start s with
                  | Some _ => Started r 1
                  | None => Started r 0
                  end
              end in
            if negb (String.eqb (execCheckCommand flags) "") then
              match NewForConfig s with
              | Err _ => Exit 1
              | Ok _ => setup (health.SetKubernetesClient healthChecker tt tt)
              end
            else setup healthChecker
        end
    end.
End main.

(** ** Concrete pods, checkers and worlds *)

Module Examples.
Import corev1 health controller.

Definition ready_true : PodCondition :=
  {| Type_ := PodReady; Status_ := ConditionTrue |}.
Definition ready_false : PodCondition :=
  {| Type_ := PodReady; Status_ := ConditionFalse |}.

Definition state_running : ContainerState :=
  {| Waiting := None; Running := Some {| StartedAt := 0 |}; Terminated := None |}.
Definition state_waiting : ContainerState :=
  {| Waiting := Some {| Reason := "CrashLoopBackOff"; Message := "" |};
     Running := None; Terminated := None |}.

Definition make_pod (phase : string) (conditions : list PodCondition)
    (ip : string) (statuses : list ContainerStatus)
    (containers : list string) : Pod :=
  {| Name := "router-0";
     corev1.Namespace := "druid";
     Labels := {[ "app" := "router" ]};
     Spec := {| Containers := (fun n => {| Container_Name := n |}) <$> containers |};
     Status := {| Phase := phase; Conditions := conditions; PodIP := ip;
                  ContainerStatuses := statuses |} |}.

(** Running and ready, one running container. *)
Definition pod_ok : Pod :=
  make_pod PodRunning [ready_true] "10.0.0.1"
    [{| Ready := true; State := state_running |}] ["router"; "sidecar"].

Definition pod_pending : Pod :=
  make_pod PodPending [] "" [] ["router"].

Definition pod_not_ready : Pod :=
  make_pod PodRunning [ready_false] "10.0.0.1" [] ["router"].

(** Running, ready condition true, but the container reports
    [ready=false] and is waiting. *)
Definition pod_container_waiting : Pod :=
  make_pod PodRunning [ready_true] "10.0.0.1"
    [{| Ready := false; State := state_waiting |}] ["router"].

(** Running, with no ready condition at all. *)
Definition pod_no_conditions : Pod :=
  make_pod PodRunning [] "10.0.0.1" [] ["router"].

Definition pod_no_ip : Pod :=
  make_pod PodRunning [ready_true] "" [] ["router"].

Definition no_checks : health.HealthCheckOptions :=
  {| HTTPCheckURL := ""; ExecCommand := ""; TCPPort := 0;
     ContainerName := ""; ExpectedOutput := "" |}.

Definition http_only (path : string) : health.HealthCheckOptions :=
  {| HTTPCheckURL := path; ExecCommand := ""; TCPPort := 0;
     ContainerName := ""; ExpectedOutput := "" |}.

Definition exec_only (command container expected : string) : health.HealthCheckOptions :=
  {| HTTPCheckURL := ""; ExecCommand := command; TCPPort := 0;
     ContainerName := container; ExpectedOutput := expected |}.

Definition all_checks : health.HealthCheckOptions :=
  {| HTTPCheckURL := "/status/health"; ExecCommand := "ps aux | grep java";
     TCPPort := 8080; ContainerName := ""; ExpectedOutput := "java" |}.

Definition checker : Checker := NewChecker (5 * second).
Definition exec_checker : Checker := SetKubernetesClient checker tt tt.

Definition internal_error : error :=
  StatusError StatusReasonInternalError "etcdserver: request timed out".
Definition not_found : error :=
  StatusError StatusReasonNotFound "pods router-0 not found".

Definition router_selector : metav1.LabelSelector :=
  {| metav1.MatchLabels := {[ "app" := "router" ]}; metav1.MatchExpressions := [] |}.

Definition router_set : appsv1.StatefulSet :=
  {| appsv1.StatefulSet_Name := "druid-router";
     appsv1.StatefulSet_Namespace := "druid";
     appsv1.Spec_Selector := Some router_selector |}.

(** A world described by the answers that vary between the examples:
    request construction, HTTP status, TCP dial, exec outcome, pod
    fetch, stateful set fetch and delete. The label library reads
    [app=router]. *)
Definition make_world (newRequest : string -> result unit)
    (status : result Z) (dial : result unit) (outcome : ExecOutcome)
    (getPod : result Pod) (getSet : result appsv1.StatefulSet)
    (delete : option error) : World :=
  {| http_NewRequest := fun _ url => newRequest url;
     http_Do := fun _ => status;
     net_Dial := fun _ _ => dial;
     spdy_NewExecutor := fun _ => Ok tt;
     spdy_Stream := fun _ => outcome;
     api_GetPod := fun _ => getPod;
     api_GetStatefulSet := fun _ => getSet;
     api_Delete := fun _ => delete;
     labels_Parse := fun text =>
       if String.eqb text "app=router"
       then Ok [labels.EqualityTerm "app" "router"]
       else Err (errorString "unable to parse requirement");
     metav1_LabelSelectorAsSelector := fun ls =>
       Ok ((fun kv => labels.EqualityTerm kv.1 kv.2)
             <$> map_to_list (metav1.MatchLabels ls)) |}.

Definition any_url : string -> result unit := fun _ => Ok tt.

(** Everything answers and succeeds. *)
Definition world_ok : World :=
  make_world any_url (Ok 200%Z) (Ok tt) (Exited 0 "java" "")
    (Ok pod_ok) (Ok router_set) None.

(** [url.Parse] rejects a port that is not a number: a check path
    without its leading slash gives such a URL. *)
Definition strict_url : string -> result unit := fun url =>
  if String.eqb url "http://10.0.0.1:8080health"
  then Err (errorString "invalid port after host")
  else Ok tt.

Definition world_strict_url : World :=
  make_world strict_url (Ok 200%Z) (Ok tt) (Exited 0 "java" "")
    (Ok pod_ok) (Ok router_set) None.

Definition world_http_503 : World :=
  make_world any_url (Ok 503%Z) (Ok tt) (Exited 0 "java" "")
    (Ok pod_ok) (Ok router_set) None.

Definition world_http_down : World :=
  make_world any_url (Err (errorString "connection refused")) (Ok tt)
    (Exited 0 "java" "") (Ok pod_ok) (Ok router_set) None.

Definition world_tcp_closed : World :=
  make_world any_url (Ok 200%Z) (Err (errorString "connection refused"))
    (Exited 0 "java" "") (Ok pod_ok) (Ok router_set) None.

Definition world_exit_2 : World :=
  make_world any_url (Ok 200%Z) (Ok tt) (Exited 2 "" "")
    (Ok pod_ok) (Ok router_set) None.

Definition world_python : World :=
  make_world any_url (Ok 200%Z) (Ok tt) (Exited 0 "python" "")
    (Ok pod_ok) (Ok router_set) None.

Definition world_fetch_fails : World :=
  make_world any_url (Ok 200%Z) (Ok tt) (Exited 0 "java" "")
    (Err internal_error) (Ok router_set) None.

Definition world_set_lookup_fails : World :=
  make_world any_url (Ok 200%Z) (Ok tt) (Exited 0 "java" "")
    (Ok pod_ok) (Err internal_error) None.

(** The pod is not ready and is already gone when it is deleted. *)
Definition world_delete_gone : World :=
  make_world any_url (Ok 200%Z) (Ok tt) (Exited 0 "java" "")
    (Ok pod_not_ready) (Ok router_set) (Some not_found).

Definition world_delete_fails : World :=
  make_world any_url (Ok 200%Z) (Ok tt) (Exited 0 "java" "")
    (Ok pod_not_ready) (Ok router_set) (Some internal_error).

Definition world_no_ip : World :=
  make_world any_url (Ok 200%Z) (Ok tt) (Exited 0 "java" "")
    (Ok pod_no_ip) (Ok router_set) None.

Definition reconciler (set selector : string) (opts : health.HealthCheckOptions)
  : PodReconciler :=
  {| StatefulSetName := set; PodLabelSelector := selector;
     controller.Namespace := "druid";
     HealthChecker := exec_checker; controller.HealthCheckOptions := opts |}.

Definition request : Request :=
  {| NamespacedName := {| types.Namespace := "druid"; types.Name := "router-0" |} |}.
End Examples.

(** ** Reading a trace *)

Global Instance Layer_eq_dec : EqDecision Layer.
Proof. solve_decision. Defined.

(** The layer an event belongs to: the entry into a check function, or
    the call that function makes. *)
Definition layerOf (e : Event) : option Layer :=
  match e with
  | Enter l => Some l
  | HTTPGet _ => Some LayerHTTP
  | TCPDial _ => Some LayerTCP
  | ExecStream _ => Some LayerExec
  | _ => None
  end.

Definition rank (l : Layer) : nat :=
  match l with
  | LayerHTTP => 1
  | LayerTCP => 2
  | LayerExec => 3
  end.

(** The check functions entered, in the order of their calls. *)
Definition entered (t : list Event) : list Layer :=
  omap (fun e => match e with Enter l => Some l | _ => None end) t.

Definition invoked (l : Layer) (t : list Event) : bool :=
  existsb (fun e => bool_decide (layerOf e = Some l)) t.

(** [substr] occurs in [s] as a run of consecutive bytes. *)
Definition occursIn (substr s : string) : Prop :=
  exists p q, s = p +:+ substr +:+ q.

(** The exec request [checkExecCommand] makes for a pod whose first
    declared container is [first]: the command runs through [sh -c] in
    the named container, or in [first] when no name is given. *)
Definition execRequestOf (c : health.Checker) (pod : corev1.Pod)
    (opts : health.HealthCheckOptions) (first : corev1.Container) : ExecRequest :=
  {| exec_Namespace := corev1.Namespace pod;
     exec_Name := corev1.Name pod;
     exec_Container :=
       if String.eqb (health.ContainerName opts) ""
       then corev1.Container_Name first
       else health.ContainerName opts;
     exec_Command := ["sh"; "-c"; health.ExecCommand opts];
     exec_Stdout := true;
     exec_Stderr := true;
     exec_Timeout := health.timeout c |}.

(** The result that asks for another reconcile in ten seconds. *)
Definition requeue_after_10s : controller.Result :=
  {| controller.Requeue := false; controller.RequeueAfter := 10 * second |}.

(** ** Verdicts of the single layers *)

(** The two status checks of [IsPodHealthy]. *)
Definition statusPasses (pod : corev1.Pod) : bool :=
  String.eqb (corev1.Phase (corev1.Status pod)) corev1.PodRunning
  && health.readyConditions (corev1.Conditions (corev1.Status pod)).

(** A layer passes when it is not configured or its check answers
    [(true, nil)]. *)
Definition httpPasses (w : World) (pod : corev1.Pod)
    (opts : health.HealthCheckOptions) : Prop :=
  health.HTTPCheckURL opts = "" \/
  value (health.checkHTTPHealth w pod (health.HTTPCheckURL opts)) = (true, None).

Definition tcpPasses (w : World) (c : health.Checker) (pod : corev1.Pod)
    (opts : health.HealthCheckOptions) : Prop :=
  (health.TCPPort opts <= 0)%Z \/
  value (health.checkTCPPort w c pod (health.TCPPort opts)) = (true, None).

Definition execPasses (w : World) (c : health.Checker) (pod : corev1.Pod)
    (opts : health.HealthCheckOptions) : Prop :=
  health.ExecCommand opts = "" \/
  value (health.checkExecCommand w c pod (health.ExecCommand opts)
           (health.ContainerName opts) (health.ExpectedOutput opts)) = (true, None).

Definition isDelete (e : Event) : bool :=
  match e with
  | ClientDelete _ _ => true
  | _ => false
  end.

Definition isClientCall (e : Event) : bool :=
  match e with
  | ClientGetPod _ | ClientGetStatefulSet _ | ClientDelete _ _ => true
  | _ => false
  end.

(** [e] is the error of a configured check, under the name of its
    layer. *)
Definition httpError (w : World) (pod : corev1.Pod)
    (opts : health.HealthCheckOptions) (e : error) : Prop :=
  health.HTTPCheckURL opts <> "" /\ exists inner,
    snd (value (health.checkHTTPHealth w pod (health.HTTPCheckURL opts))) = Some inner
    /\ e = wrapError "http health check failed" inner.

Definition tcpError (w : World) (c : health.Checker) (pod : corev1.Pod)
    (opts : health.HealthCheckOptions) (e : error) : Prop :=
  (0 < health.TCPPort opts)%Z /\ exists inner,
    snd (value (health.checkTCPPort w c pod (health.TCPPort opts))) = Some inner
    /\ e = wrapError "tcp port check failed" inner.

Definition execError (w : World) (c : health.Checker) (pod : corev1.Pod)
    (opts : health.HealthCheckOptions) (e : error) : Prop :=
  health.ExecCommand opts <> "" /\ exists inner,
    snd (value (health.checkExecCommand w c pod (health.ExecCommand opts)
                  (health.ContainerName opts) (health.ExpectedOutput opts)))
    = Some inner
    /\ e = wrapError "exec command check failed" inner.

(** ** Further pods and worlds *)

Module Scenarios.
Import corev1 health controller.

Definition pod_no_containers : Pod :=
  Examples.make_pod PodRunning [Examples.ready_true] "10.0.0.1" [] [].

(** The same labels as [Examples.pod_ok], nothing else in common. *)
Definition pod_stranger : Pod :=
  {| Name := "intruder"; corev1.Namespace := "elsewhere";
     Labels := {[ "app" := "router" ]};
     Spec := {| Containers := [] |};
     Status := {| Phase := PodFailed; Conditions := []; PodIP := "";
                  ContainerStatuses := [] |} |}.

Definition pod_frontend : Pod :=
  {| Name := "frontend-0"; corev1.Namespace := "druid";
     Labels := {[ "app" := "frontend" ]};
     Spec := {| Containers := [] |};
     Status := {| Phase := PodRunning; Conditions := []; PodIP := "";
                  ContainerStatuses := [] |} |}.

Definition world_pod_gone : World :=
  Examples.make_world Examples.any_url (Ok 200%Z) (Ok tt) (Exited 0 "java" "")
    (Err Examples.not_found) (Ok Examples.router_set) None.

(** [Examples.world_ok], but no executor can be created. *)
Definition world_no_executor : World :=
  {| http_NewRequest := http_NewRequest Examples.world_ok;
     http_Do := http_Do Examples.world_ok;
     net_Dial := net_Dial Examples.world_ok;
     spdy_NewExecutor := fun _ => Err (errorString "unable to upgrade connection");
     spdy_Stream := spdy_Stream Examples.world_ok;
     api_GetPod := api_GetPod Examples.world_ok;
     api_GetStatefulSet := api_GetStatefulSet Examples.world_ok;
     api_Delete := api_Delete Examples.world_ok;
     labels_Parse := labels_Parse Examples.world_ok;
     metav1_LabelSelectorAsSelector :=
       metav1_LabelSelectorAsSelector Examples.world_ok |}.

Definition pod_object (namespace : string) (labels : gmap string string) : Object :=
  PodObject {| Name := "p"; corev1.Namespace := namespace; Labels := labels;
               Spec := {| Containers := [] |};
               Status := {| Phase := PodRunning; Conditions := []; PodIP := "";
                            ContainerStatuses := [] |} |}.

(** A cluster that answers and a framework that builds and starts. *)
Definition startup_ok : main.Startup :=
  {| main.GetConfigOrDie := Some tt;
     main.NewManager := Ok tt;
     main.NewForConfig := Ok tt;
     main.Complete := fun _ => None;
     main.Start := None |}.

Definition flags (set selector command : string) : main.Flags :=
  {| main.namespace := "druid";
     main.statefulSetName := set;
     main.podLabelSelector := selector;
     main.healthCheckURL := "/status/health";
     main.healthCheckTimeout := 5 * second;
     main.execCheckCommand := command;
     main.execCheckContainer := "";
     main.execCheckExpected := "";
     main.tcpCheckPort := 0 |}.

(** [strconv.Atoi] and [time.ParseDuration] on the few strings of the
    examples. *)
Definition atoi (s : string) : result Z :=
  if String.eqb s "0" then Ok 0%Z
  else if String.eqb s "8080" then Ok 8080%Z
  else Err (errorString "invalid syntax").

Definition parseDuration (s : string) : result Z :=
  if String.eqb s "5s" then Ok (5 * second)%Z
  else if String.eqb s "10s" then Ok (10 * second)%Z
  else Err (errorString "invalid duration").
End Scenarios.

(** The checker [main] builds for the flags: the exec client is set when
    an exec command is given. *)
Definition checkerOf (flags : main.Flags) : health.Checker :=
  if negb (String.eqb (main.execCheckCommand flags) "")
  then health.SetKubernetesClient
         (health.NewChecker (main.healthCheckTimeout flags)) tt tt
  else health.NewChecker (main.healthCheckTimeout flags).

(** The reconciler [main] builds for the flags. *)
Definition reconcilerOf (flags : main.Flags) : controller.PodReconciler :=
  {| controller.StatefulSetName := main.statefulSetName flags;
     controller.PodLabelSelector := main.podLabelSelector flags;
     controller.Namespace := main.namespace flags;
     controller.HealthChecker := checkerOf flags;
     controller.HealthCheckOptions :=
       {| health.HTTPCheckURL := main.healthCheckURL flags;
          health.ExecCommand := main.execCheckCommand flags;
          health.TCPPort := main.tcpCheckPort flags;
          health.ContainerName := main.execCheckContainer flags;
          health.ExpectedOutput := main.execCheckExpected flags |} |}.

(** The variable is not set, or set to the empty string. *)
Definition unsetOrEmpty (env : gmap string string) (key : string) : Prop :=
  env !! key = None \/ env !! key = Some "".

(** [pod] as it would be with other container statuses. *)
Definition withContainerStatuses (pod : corev1.Pod)
    (statuses : list corev1.ContainerStatus) : corev1.Pod :=
  {| corev1.Name := corev1.Name pod;
     corev1.Namespace := corev1.Namespace pod;
     corev1.Labels := corev1.Labels pod;
     corev1.Spec := corev1.Spec pod;
     corev1.Status :=
       {| corev1.Phase := corev1.Phase (corev1.Status pod);
          corev1.Conditions := corev1.Conditions (corev1.Status pod);
          corev1.PodIP := corev1.PodIP (corev1.Status pod);
          corev1.ContainerStatuses := statuses |} |}.

(** [w] with other answers to the fetch and to the delete of a pod. *)
Definition withPodAnswers (w : World)
    (fetch : types.NamespacedName -> result corev1.Pod)
    (delete : corev1.Pod -> option error) : World :=
  {| http_NewRequest := http_NewRequest w;
     http_Do := http_Do w;
     net_Dial := net_Dial w;
     spdy_NewExecutor := spdy_NewExecutor w;
     spdy_Stream := spdy_Stream w;
     api_GetPod := fetch;
     api_GetStatefulSet := api_GetStatefulSet w;
     api_Delete := delete;
     labels_Parse := labels_Parse w;
     metav1_LabelSelectorAsSelector := metav1_LabelSelectorAsSelector w |}.

(** The one line [Reconcile] logs of the answer of [CheckPodStatus]. *)
Definition isStatusCheckLog (e : Event) : bool :=
  match e with
  | LogInfo verbosity msg =>
      (verbosity =? 0)%Z
      && String.eqb msg "Pod status check failed, proceeding with restart"
  | _ => false
  end.

(** A trace without that line. *)
Definition withoutStatusCheckLog (t : list Event) : list Event :=
  List.filter (fun e => negb (isStatusCheckLog e)) t.

(** * Properties *)

Import corev1.

(** ** The trace monad *)

Lemma value_bind {A B} (m : IO A) (k : A -> IO B) :
  value (bind m k) = value (k (value m)).
Proof. destruct m as [a t]; simpl. destruct (k a); reflexivity. Qed.

Lemma trace_bind {A B} (m : IO A) (k : A -> IO B) :
  trace (bind m k) = trace m ++ trace (k (value m)).
Proof. destruct m as [a t]; simpl. destruct (k a); reflexivity. Qed.

Lemma bind_emit {A} (e : Event) (k : IO A) :
  (emit e ;; k) = (value k, e :: trace k).
Proof. destruct k; reflexivity. Qed.

Lemma IO_eta {A} (m : IO A) : m = (value m, trace m).
Proof. destruct m; reflexivity. Qed.

(** ** The status checks *)

Lemma readyConditions_false (conditions : list PodCondition) :
  health.readyConditions conditions = false <->
  exists condition, condition ∈ conditions /\
    Type_ condition = PodReady /\ Status_ condition <> ConditionTrue.
Proof.
  induction conditions as [|c rest IH]; simpl.
  - split; [discriminate | intros (x & Hx & _); inversion Hx].
  - destruct (String.eqb (Type_ c) PodReady) eqn:Ht.
    + destruct (String.eqb (Status_ c) ConditionTrue) eqn:Hs; simpl.
      * rewrite IH. apply String.eqb_eq in Hs.
        split; intros (x & Hx & Hty & Hst).
        -- exists x. split; [now apply list_elem_of_further | easy].
        -- apply elem_of_cons in Hx as [-> | Hx]; [easy | eauto].
      * split; [intros _ | reflexivity].
        exists c. apply String.eqb_eq in Ht. apply String.eqb_neq in Hs.
        split; [apply list_elem_of_here | easy].
    + rewrite IH. apply String.eqb_neq in Ht.
      split; intros (x & Hx & Hty & Hst).
      * exists x. split; [now apply list_elem_of_further | easy].
      * apply elem_of_cons in Hx as [-> | Hx]; [easy | eauto].
Qed.

Lemma readyConditions_no_entry (conditions : list PodCondition) :
  (forall condition, condition ∈ conditions -> Type_ condition <> PodReady) ->
  health.readyConditions conditions = true.
Proof.
  intros Hno. destruct (health.readyConditions conditions) eqn:E; [reflexivity|].
  apply readyConditions_false in E as (x & Hx & Hty & _).
  now apply Hno in Hx.
Qed.

Lemma containerStatusesLoop_false (statuses : list ContainerStatus) :
  health.containerStatusesLoop statuses = false <->
  exists cs, cs ∈ statuses /\ (Ready cs = false \/ is_Some (Waiting (State cs))).
Proof.
  induction statuses as [|s rest IH]; simpl.
  - split; [discriminate | intros (x & Hx & _); inversion Hx].
  - destruct (Ready s) eqn:Hr; simpl.
    + destruct (Waiting (State s)) as [wt|] eqn:Hw.
      * split; [intros _ | reflexivity].
        exists s. split; [apply list_elem_of_here | right; rewrite Hw; eauto].
      * rewrite IH. split; intros (x & Hx & Hbad).
        -- exists x. split; [now apply list_elem_of_further | easy].
        -- apply elem_of_cons in Hx as [-> | Hx]; [|eauto].
           destruct Hbad as [Hbad | [? Hbad]]; congruence.
    + split; [intros _ | reflexivity].
      exists s. split; [apply list_elem_of_here | now left].
Qed.

(** Once the phase is Running and the condition loop runs through,
    [IsPodHealthy] is what the optional layers make of the pod. *)
Lemma IsPodHealthy_status_passes w c pod opts :
  Phase (Status pod) = PodRunning ->
  health.readyConditions (Conditions (Status pod)) = true ->
  health.IsPodHealthy w c pod opts = health.httpLayer w c pod opts.
Proof.
  intros Hphase Hready. unfold health.IsPodHealthy.
  rewrite Hphase, Hready. reflexivity.
Qed.

Lemma IsPodHealthy_status_fails w c pod opts :
  Phase (Status pod) <> PodRunning \/
  health.readyConditions (Conditions (Status pod)) = false ->
  health.IsPodHealthy w c pod opts = ((false, None), []).
Proof.
  unfold health.IsPodHealthy. intros [Hphase | Hready].
  - apply String.eqb_neq in Hphase. rewrite Hphase. reflexivity.
  - rewrite Hready. simpl. destruct (negb _); reflexivity.
Qed.

(** C1, as the code has it. [IsPodHealthy] answers unhealthy, with no
    error and without a single call of an optional layer, when the phase
    is not Running or when the condition list holds a Ready entry whose
    status is not True. The container statuses do not enter its verdict:
    with any other container statuses the pod gets the same answer and
    the same calls. A container that reports [ready=false] or whose state
    is waiting makes [CheckPodStatus] answer [false], and [Reconcile]
    only logs that answer: had the fetched pod come with any other
    container statuses, the reconcile would end with the same result and
    the same trace, the one log line of the status check apart. *)
Theorem IsPodHealthy_status_layer w c pod opts :
  (Phase (Status pod) <> PodRunning \/
   (exists condition, condition ∈ Conditions (Status pod) /\
      Type_ condition = PodReady /\ Status_ condition <> ConditionTrue) ->
   health.IsPodHealthy w c pod opts = ((false, None), []))
  /\
  (forall statuses,
     health.IsPodHealthy w c (withContainerStatuses pod statuses) opts
     = health.IsPodHealthy w c pod opts)
  /\
  ((exists cs, cs ∈ ContainerStatuses (Status pod) /\
      (Ready cs = false \/ is_Some (Waiting (State cs)))) ->
   health.CheckPodStatus c pod = false)
  /\
  (forall r req statuses,
     api_GetPod w (controller.NamespacedName req) = Ok pod ->
     let w' := withPodAnswers w
                 (fun _ => Ok (withContainerStatuses pod statuses))
                 (fun _ => api_Delete w pod) in
     value (controller.Reconcile w' r req) = value (controller.Reconcile w r req)
     /\ withoutStatusCheckLog (trace (controller.Reconcile w' r req))
        = withoutStatusCheckLog (trace (controller.Reconcile w r req))).
Proof.
  split; [|split; [|split]].
  - intros H. apply IsPodHealthy_status_fails.
    destruct H as [H | H]; [now left | right].
    now apply readyConditions_false.
  - intros statuses. reflexivity.
  - intros H. apply containerStatusesLoop_false in H.
    unfold health.CheckPodStatus. rewrite H.
    destruct (negb (health.conditionsLoop _)); reflexivity.
  - intros r req statuses Hget w'.
    set (pod' := withContainerStatuses pod statuses) in *.
    assert (Hget' : api_GetPod w' (controller.NamespacedName req) = Ok pod')
      by reflexivity.
    assert (Hm : controller.matchesFilter w' r pod' = controller.matchesFilter w r pod)
      by reflexivity.
    assert (Hh : health.IsPodHealthy w' (controller.HealthChecker r) pod'
                   (controller.HealthCheckOptions r)
                 = health.IsPodHealthy w (controller.HealthChecker r) pod
                     (controller.HealthCheckOptions r))
      by reflexivity.
    assert (Hd : api_Delete w' pod' = api_Delete w pod) by reflexivity.
    assert (Hns : corev1.Namespace pod' = corev1.Namespace pod) by reflexivity.
    assert (Hn : Name pod' = Name pod) by reflexivity.
    unfold controller.Reconcile. rewrite Hget, Hget', Hm, Hh, Hd, Hns, Hn.
    clearbody w' pod'.
    unfold withoutStatusCheckLog.
    destruct (controller.matchesFilter w r pod) as [[|] tm];
      destruct (health.IsPodHealthy w _ pod _) as [[[|] [e|]] th];
      destruct (health.CheckPodStatus (controller.HealthChecker r) pod);
      destruct (health.CheckPodStatus (controller.HealthChecker r) pod');
      destruct (api_Delete w pod) as [e'|];
      try destruct (errors.IsNotFound e');
      simpl; (split; [reflexivity|]);
      rewrite ?List.filter_app; simpl; rewrite ?List.filter_app; simpl;
      reflexivity.
Qed.

Lemma IsPodHealthy_status_layer_witness :
  health.IsPodHealthy Examples.world_ok Examples.checker
    Examples.pod_pending Examples.all_checks = ((false, None), [])
  /\ health.CheckPodStatus Examples.checker Examples.pod_container_waiting = false
  /\ value (controller.Reconcile
              (withPodAnswers Examples.world_ok
                 (fun _ => Ok (withContainerStatuses Examples.pod_ok
                                 [{| Ready := false; State := Examples.state_waiting |}]))
                 (fun _ => api_Delete Examples.world_ok Examples.pod_ok))
              (Examples.reconciler "druid-router" "app=router" Examples.no_checks)
              Examples.request)
     = value (controller.Reconcile Examples.world_ok
                (Examples.reconciler "druid-router" "app=router" Examples.no_checks)
                Examples.request).
Proof.
  split; [|split].
  - destruct (IsPodHealthy_status_layer Examples.world_ok Examples.checker
                Examples.pod_pending Examples.all_checks) as (Hstatus & _ & _ & _).
    apply Hstatus. left. discriminate.
  - destruct (IsPodHealthy_status_layer Examples.world_ok Examples.checker
                Examples.pod_container_waiting Examples.all_checks)
      as (_ & _ & Hcheck & _).
    apply Hcheck. eexists. split; [apply list_elem_of_here | left; reflexivity].
  - destruct (IsPodHealthy_status_layer Examples.world_ok Examples.checker
                Examples.pod_ok Examples.all_checks) as (_ & _ & _ & Hlog).
    destruct (Hlog (Examples.reconciler "druid-router" "app=router" Examples.no_checks)
                Examples.request
                [{| Ready := false; State := Examples.state_waiting |}] eq_refl)
      as [Hvalue _].
    exact Hvalue.
Defined.

(** C1 as it is written fails: a Running pod whose Ready condition is
    True, with a declared container that reports [ready=false] and is
    waiting, is healthy for [IsPodHealthy]. *)
Lemma IsPodHealthy_ignores_container_statuses :
  (exists cs, cs ∈ ContainerStatuses (Status Examples.pod_container_waiting) /\
     Ready cs = false /\ is_Some (Waiting (State cs)))
  /\ health.IsPodHealthy Examples.world_ok Examples.checker
       Examples.pod_container_waiting Examples.no_checks = ((true, None), []).
Proof.
  split; [|reflexivity].
  eexists. split; [apply list_elem_of_here|]. split; [reflexivity | simpl; eauto].
Qed.

(** C10. A Running pod whose condition list has no Ready entry passes the
    status checks: [IsPodHealthy] is then the optional layers, and it is
    healthy, with no call made, when none of them is configured. *)
Theorem IsPodHealthy_without_ready_condition w c pod opts :
  Phase (Status pod) = PodRunning ->
  (forall condition, condition ∈ Conditions (Status pod) ->
     Type_ condition <> PodReady) ->
  health.IsPodHealthy w c pod opts = health.httpLayer w c pod opts
  /\ (health.HTTPCheckURL opts = "" -> (health.TCPPort opts <= 0)%Z ->
      health.ExecCommand opts = "" ->
      health.IsPodHealthy w c pod opts = ((true, None), [])).
Proof.
  intros Hphase Hno.
  assert (E : health.IsPodHealthy w c pod opts = health.httpLayer w c pod opts).
  { apply IsPodHealthy_status_passes; [assumption|].
    now apply readyConditions_no_entry. }
  split; [exact E|].
  intros Hhttp Htcp Hexec. rewrite E.
  unfold health.httpLayer, health.tcpLayer, health.execLayer.
  rewrite Hhttp, Hexec. simpl.
  destruct (0 <? health.TCPPort opts)%Z eqn:Hp; [|reflexivity].
  apply Z.ltb_lt in Hp. lia.
Qed.

Lemma IsPodHealthy_without_ready_condition_witness :
  health.IsPodHealthy Examples.world_ok Examples.checker
    Examples.pod_no_conditions Examples.no_checks = ((true, None), []).
Proof.
  apply (IsPodHealthy_without_ready_condition Examples.world_ok Examples.checker
           Examples.pod_no_conditions Examples.no_checks).
  - reflexivity.
  - intros condition Hin. inversion Hin.
  - reflexivity.
  - simpl. lia.
  - reflexivity.
Defined.

(** ** Order of the layers *)

Ltac unfold_checks :=
  unfold health.IsPodHealthy, health.httpLayer, health.tcpLayer,
    health.execLayer, health.checkHTTPHealth, health.checkTCPPort,
    health.checkExecCommand.

(** Case analysis on an innermost scrutinee of the goal. *)
Ltac break_match :=
  match goal with
  | |- context [match ?x with _ => _ end] =>
      lazymatch x with
      | context [match _ with _ => _ end] => fail
      | _ => destruct x eqn:?
      end
  end.

Ltac solve_sublist :=
  repeat first [apply sublist_nil_l | apply sublist_skip | apply sublist_cons].

(** Closes a branch whose boolean tests contradict each other. *)
Ltac absurd_branch :=
  exfalso;
  repeat match goal with
         | H : negb _ = false |- _ => apply negb_false_iff in H
         | H : negb _ = true |- _ => apply negb_true_iff in H
         end;
  congruence.

Ltac run_checks := unfold_checks; repeat (simpl; break_match); simpl.

Lemma IsPodHealthy_layers_in_order w c pod opts :
  entered (trace (health.IsPodHealthy w c pod opts))
    `sublist_of` [LayerHTTP; LayerTCP; LayerExec]
  /\ StronglySorted le
       (rank <$> omap layerOf (trace (health.IsPodHealthy w c pod opts))).
Proof.
  run_checks; (split; [solve_sublist | repeat constructor; simpl; lia]).
Qed.

Lemma failed_check_stops w c pod opts :
  (health.HTTPCheckURL opts <> "" ->
   fst (value (health.checkHTTPHealth w pod (health.HTTPCheckURL opts))) = false ->
   fst (value (health.IsPodHealthy w c pod opts)) = false
   /\ invoked LayerTCP (trace (health.IsPodHealthy w c pod opts)) = false
   /\ invoked LayerExec (trace (health.IsPodHealthy w c pod opts)) = false)
  /\
  ((0 < health.TCPPort opts)%Z ->
   fst (value (health.checkTCPPort w c pod (health.TCPPort opts))) = false ->
   fst (value (health.IsPodHealthy w c pod opts)) = false
   /\ invoked LayerExec (trace (health.IsPodHealthy w c pod opts)) = false).
Proof.
  split.
  - intros Hurl. apply String.eqb_neq in Hurl.
    unfold_checks. rewrite Hurl.
    repeat (simpl; break_match); simpl; intros; try discriminate; auto;
      absurd_branch.
  - intros Hport. apply Z.ltb_lt in Hport.
    unfold_checks. rewrite Hport.
    repeat (simpl; break_match); simpl; intros; try discriminate; auto;
      absurd_branch.
Qed.

(** C3. The check functions are entered in the order HTTP, TCP, exec,
    each at most once, and every call they make lies in that order too.
    When the status checks fail nothing is called at all; when the HTTP
    check does not pass, the TCP and exec checks are not invoked; when the
    TCP check does not pass, the exec check is not invoked. In each case
    the pod is not healthy. *)
Theorem IsPodHealthy_short_circuit w c pod opts :
  (entered (trace (health.IsPodHealthy w c pod opts))
     `sublist_of` [LayerHTTP; LayerTCP; LayerExec]
   /\ StronglySorted le
        (rank <$> omap layerOf (trace (health.IsPodHealthy w c pod opts))))
  /\
  (Phase (Status pod) <> PodRunning \/
   health.readyConditions (Conditions (Status pod)) = false ->
   fst (value (health.IsPodHealthy w c pod opts)) = false
   /\ trace (health.IsPodHealthy w c pod opts) = [])
  /\
  (health.HTTPCheckURL opts <> "" ->
   fst (value (health.checkHTTPHealth w pod (health.HTTPCheckURL opts))) = false ->
   fst (value (health.IsPodHealthy w c pod opts)) = false
   /\ invoked LayerTCP (trace (health.IsPodHealthy w c pod opts)) = false
   /\ invoked LayerExec (trace (health.IsPodHealthy w c pod opts)) = false)
  /\
  ((0 < health.TCPPort opts)%Z ->
   fst (value (health.checkTCPPort w c pod (health.TCPPort opts))) = false ->
   fst (value (health.IsPodHealthy w c pod opts)) = false
   /\ invoked LayerExec (trace (health.IsPodHealthy w c pod opts)) = false).
Proof.
  split; [apply IsPodHealthy_layers_in_order|].
  split; [|apply failed_check_stops].
  intros H. rewrite (IsPodHealthy_status_fails w c pod opts H). split; reflexivity.
Qed.

Lemma IsPodHealthy_short_circuit_witness :
  trace (health.IsPodHealthy Examples.world_ok Examples.exec_checker
           Examples.pod_not_ready Examples.all_checks) = []
  /\ invoked LayerTCP
       (trace (health.IsPodHealthy Examples.world_http_503 Examples.exec_checker
                 Examples.pod_ok Examples.all_checks)) = false
  /\ invoked LayerExec
       (trace (health.IsPodHealthy Examples.world_tcp_closed Examples.exec_checker
                 Examples.pod_ok Examples.all_checks)) = false.
Proof.
  split; [|split].
  - destruct (IsPodHealthy_short_circuit Examples.world_ok Examples.exec_checker
                Examples.pod_not_ready Examples.all_checks)
      as (_ & Hstatus & _ & _).
    apply Hstatus. right. reflexivity.
  - destruct (IsPodHealthy_short_circuit Examples.world_http_503
                Examples.exec_checker Examples.pod_ok Examples.all_checks)
      as (_ & _ & Hhttp & _).
    apply Hhttp; [discriminate | reflexivity].
  - destruct (IsPodHealthy_short_circuit Examples.world_tcp_closed
                Examples.exec_checker Examples.pod_ok Examples.all_checks)
      as (_ & _ & _ & Htcp).
    apply Htcp; reflexivity.
Defined.

(** ** [contains] *)

Lemma append_cons c (s t : string) : String c s +:+ t = String c (s +:+ t).
Proof. reflexivity. Qed.

Lemma append_empty_l (t : string) : "" +:+ t = t.
Proof. reflexivity. Qed.

Lemma length_append (s t : string) :
  String.length (s +:+ t) = String.length s + String.length t.
Proof.
  induction s as [|c s IH]; [reflexivity|].
  rewrite append_cons. simpl. now rewrite IH.
Qed.

Lemma substring_prefix (sub s : string) :
  String.substring 0 (String.length sub) s = sub <-> exists q, s = sub +:+ q.
Proof.
  revert s. induction sub as [|a sub IH]; intros s.
  - split; [intros _; now exists s | intros _; now destruct s].
  - destruct s as [|c s]; simpl.
    + split; [discriminate | intros [q Hq]; discriminate Hq].
    + split.
      * intros H. injection H as -> H. apply IH in H as [q ->]. now exists q.
      * intros [q Hq]. rewrite append_cons in Hq. injection Hq as -> ->.
        f_equal. apply IH. now exists q.
Qed.

Lemma substring_occurs (i : nat) (sub s : string) :
  String.substring i (String.length sub) s = sub ->
  exists p q, s = p +:+ sub +:+ q.
Proof.
  revert s. induction i as [|i IH]; intros s H.
  - apply substring_prefix in H as [q ->]. now exists "", q.
  - destruct s as [|c s]; simpl in H.
    + subst sub. now exists "", "".
    + apply IH in H as (p & q & ->). now exists (String c p), q.
Qed.

Lemma substring_at_occurrence (p sub q : string) :
  String.substring (String.length p) (String.length sub) (p +:+ sub +:+ q) = sub.
Proof.
  induction p as [|c p IH].
  - rewrite append_empty_l. apply substring_prefix. now exists q.
  - rewrite append_cons. simpl. exact IH.
Qed.

Lemma contains_from_true (s sub : string) (i n : nat) :
  health.contains_from s sub i n = true <->
  exists j, i <= j < i + n /\ String.substring j (String.length sub) s = sub.
Proof.
  revert i. induction n as [|n IH]; intros i; simpl.
  - split; [discriminate | intros (j & Hj & _); lia].
  - destruct (String.eqb_spec (String.substring i (String.length sub) s) sub) as [E|E].
    + split; [intros _ | reflexivity]. exists i. split; [lia | exact E].
    + rewrite IH. split; intros (j & Hj & Hs).
      * exists j. split; [lia | exact Hs].
      * exists j. split; [|exact Hs].
        destruct (decide (j = i)) as [->|]; [contradiction | lia].
Qed.

Lemma contains_occurs (s substr : string) :
  health.contains s substr = true <-> occursIn substr s.
Proof.
  unfold health.contains, occursIn.
  destruct (String.length s <? String.length substr) eqn:Hlen.
  - apply Nat.ltb_lt in Hlen. split; [discriminate|].
    intros (p & q & ->). rewrite !length_append in Hlen. lia.
  - apply Nat.ltb_ge in Hlen. rewrite contains_from_true. split.
    + intros (j & _ & Hj). now apply substring_occurs in Hj.
    + intros (p & q & ->). exists (String.length p).
      split; [|apply substring_at_occurrence].
      rewrite !length_append. lia.
Qed.

(** ** The HTTP layer *)

(** C5, as the code has it. With the status checks passed and an HTTP
    path configured: an empty pod address aborts the evaluation with an
    error and no request; so does a URL [http://<address>:8080<path>]
    from which no request can be built; otherwise one GET of that URL is
    issued, a transport failure or a status outside [200,400) is the
    verdict unhealthy with no error, and a status inside lets the
    evaluation go on with the TCP layer. *)
Theorem IsPodHealthy_http_layer w c pod opts :
  Phase (Status pod) = PodRunning ->
  health.readyConditions (Conditions (Status pod)) = true ->
  health.HTTPCheckURL opts <> "" ->
  let url := "http://" +:+ PodIP (Status pod) +:+ ":8080" +:+ health.HTTPCheckURL opts in
  let r := health.IsPodHealthy w c pod opts in
  (PodIP (Status pod) = "" ->
   r = ((false, Some (wrapError "http health check failed"
                        (errorString "pod IP is not available"))),
        [Enter LayerHTTP]))
  /\
  (PodIP (Status pod) <> "" -> forall e, http_NewRequest w "GET" url = Err e ->
   r = ((false, Some (wrapError "http health check failed"
                        (wrapError "failed to create request" e))),
        [Enter LayerHTTP]))
  /\
  (PodIP (Status pod) <> "" -> http_NewRequest w "GET" url = Ok tt ->
   (forall e, http_Do w url = Err e ->
      r = ((false, None), [Enter LayerHTTP; HTTPGet url]))
   /\
   (forall code, http_Do w url = Ok code -> (200 <= code < 400)%Z ->
      r = (value (health.tcpLayer w c pod opts),
           Enter LayerHTTP :: HTTPGet url :: trace (health.tcpLayer w c pod opts)))
   /\
   (forall code, http_Do w url = Ok code -> ~ (200 <= code < 400)%Z ->
      r = ((false, None), [Enter LayerHTTP; HTTPGet url]))).
Proof.
  intros Hphase Hready Hurl url r. subst r.
  rewrite (IsPodHealthy_status_passes w c pod opts Hphase Hready).
  apply String.eqb_neq in Hurl.
  unfold health.httpLayer, health.checkHTTPHealth. rewrite Hurl. simpl.
  fold url. split; [|split].
  - intros Hip. rewrite Hip. reflexivity.
  - intros Hip e He. apply String.eqb_neq in Hip. rewrite Hip, He. reflexivity.
  - intros Hip Hreq. apply String.eqb_neq in Hip. rewrite Hip, Hreq. simpl.
    split; [|split].
    + intros e He. rewrite He. reflexivity.
    + intros code Hc Hrange. rewrite Hc. simpl.
      replace ((200 <=? code)%Z && (code <? 400)%Z) with true
        by (symmetry; apply andb_true_iff; split;
            [apply Z.leb_le | apply Z.ltb_lt]; lia).
      simpl. destruct (health.tcpLayer w c pod opts); reflexivity.
    + intros code Hc Hrange. rewrite Hc. simpl.
      replace ((200 <=? code)%Z && (code <? 400)%Z) with false; [reflexivity|].
      symmetry. apply andb_false_iff.
      destruct (Z.leb_spec 200 code); [right | now left].
      apply Z.ltb_ge. lia.
Qed.

Lemma IsPodHealthy_http_layer_witness :
  fst (health.IsPodHealthy Examples.world_ok Examples.checker
         Examples.pod_no_ip (Examples.http_only "/health"))
  = (false, Some (wrapError "http health check failed"
                    (errorString "pod IP is not available")))
  /\ trace (health.IsPodHealthy Examples.world_strict_url Examples.checker
              Examples.pod_ok (Examples.http_only "health")) = [Enter LayerHTTP]
  /\ health.IsPodHealthy Examples.world_http_down Examples.checker
       Examples.pod_ok (Examples.http_only "/health")
     = ((false, None), [Enter LayerHTTP; HTTPGet "http://10.0.0.1:8080/health"])
  /\ health.IsPodHealthy Examples.world_ok Examples.checker
       Examples.pod_ok (Examples.http_only "/health")
     = ((true, None), [Enter LayerHTTP; HTTPGet "http://10.0.0.1:8080/health"])
  /\ health.IsPodHealthy Examples.world_http_503 Examples.checker
       Examples.pod_ok (Examples.http_only "/health")
     = ((false, None), [Enter LayerHTTP; HTTPGet "http://10.0.0.1:8080/health"]).
Proof.
  split; [|split; [|split; [|split]]].
  - destruct (IsPodHealthy_http_layer Examples.world_ok Examples.checker
                Examples.pod_no_ip (Examples.http_only "/health"))
      as (H & _ & _); [reflexivity | reflexivity | discriminate |].
    rewrite H; reflexivity.
  - destruct (IsPodHealthy_http_layer Examples.world_strict_url Examples.checker
                Examples.pod_ok (Examples.http_only "health"))
      as (_ & H & _); [reflexivity | reflexivity | discriminate |].
    rewrite (H ltac:(discriminate) (errorString "invalid port after host") eq_refl).
    reflexivity.
  - destruct (IsPodHealthy_http_layer Examples.world_http_down Examples.checker
                Examples.pod_ok (Examples.http_only "/health"))
      as (_ & _ & H); [reflexivity | reflexivity | discriminate |].
    destruct (H ltac:(discriminate) eq_refl) as (Hdown & _ & _).
    exact (Hdown (errorString "connection refused") eq_refl).
  - destruct (IsPodHealthy_http_layer Examples.world_ok Examples.checker
                Examples.pod_ok (Examples.http_only "/health"))
      as (_ & _ & H); [reflexivity | reflexivity | discriminate |].
    destruct (H ltac:(discriminate) eq_refl) as (_ & Hpass & _).
    exact (Hpass 200%Z eq_refl ltac:(lia)).
  - destruct (IsPodHealthy_http_layer Examples.world_http_503 Examples.checker
                Examples.pod_ok (Examples.http_only "/health"))
      as (_ & _ & H); [reflexivity | reflexivity | discriminate |].
    destruct (H ltac:(discriminate) eq_refl) as (_ & _ & Hbad).
    exact (Hbad 503%Z eq_refl ltac:(lia)).
Defined.

(** C5 as it is written fails: the address of the pod is not empty, yet
    no GET is issued and the evaluation ends with an error, because the
    configured path [health] has no leading slash and the URL built from
    it is not one a request can be made of. *)
Lemma IsPodHealthy_http_request_not_built :
  PodIP (Status Examples.pod_ok) <> ""
  /\ health.IsPodHealthy Examples.world_strict_url Examples.checker
       Examples.pod_ok (Examples.http_only "health")
     = ((false, Some (wrapError "http health check failed"
                        (wrapError "failed to create request"
                           (errorString "invalid port after host")))),
        [Enter LayerHTTP])
  /\ (forall url, HTTPGet url ∉
        trace (health.IsPodHealthy Examples.world_strict_url Examples.checker
                 Examples.pod_ok (Examples.http_only "health"))).
Proof.
  split; [discriminate|]. split; [reflexivity|].
  intros url Hin. apply list_elem_of_singleton in Hin. discriminate Hin.
Qed.

(** ** The exec layer *)

(** Refutes the membership [H] of an event in a list of other events. *)
Ltac refute_in H :=
  repeat (apply elem_of_cons in H as [H | H]; [discriminate H|]);
  apply elem_of_nil in H; exact H.

(** When the exec check is entered, the verdict of the evaluation is the
    one of layer 5 and the exec streams are those of [checkExecCommand]. *)
Lemma exec_entered w c pod opts :
  Enter LayerExec ∈ trace (health.IsPodHealthy w c pod opts) ->
  health.ExecCommand opts <> ""
  /\ value (health.IsPodHealthy w c pod opts) = value (health.execLayer w c pod opts)
  /\ (forall req,
        ExecStream req ∈ trace (health.IsPodHealthy w c pod opts) <->
        ExecStream req ∈ trace (health.checkExecCommand w c pod
                                  (health.ExecCommand opts)
                                  (health.ContainerName opts)
                                  (health.ExpectedOutput opts))).
Proof.
  run_checks; intros Hin;
    first [ exfalso; refute_in Hin
          | split; [ intros Hempty; rewrite Hempty in *; discriminate
                   | split; [ reflexivity
                            | intros req; rewrite ?elem_of_cons, ?elem_of_nil;
                              intuition discriminate ] ] ].
Qed.

(** C4. Whenever the evaluation enters the exec check: without a
    Kubernetes client (or its configuration) the evaluation ends with an
    error, which is not the verdict unhealthy; with them, for a pod with
    declared containers and an executor at hand, the command is streamed
    once, in the named container or else in the first declared one; a
    broken stream or a non-zero exit code is the verdict unhealthy with no
    error; after exit code 0 the pod passes exactly when no expected
    output is configured, or the captured standard output is the expected
    output, or contains it. *)
Theorem IsPodHealthy_exec_layer w c pod opts :
  Enter LayerExec ∈ trace (health.IsPodHealthy w c pod opts) ->
  let v := value (health.IsPodHealthy w c pod opts) in
  (health.k8sClient c = None \/ health.restConfig c = None ->
   v = (false, Some (wrapError "exec command check failed"
                       (errorString "kubernetes client not configured for exec checks")))
   /\ v <> (false, None))
  /\
  (forall first rest,
     is_Some (health.k8sClient c) -> is_Some (health.restConfig c) ->
     Containers (Spec pod) = first :: rest ->
     let req := execRequestOf c pod opts first in
     spdy_NewExecutor w req = Ok tt ->
     (forall req', ExecStream req' ∈ trace (health.IsPodHealthy w c pod opts)
                   <-> req' = req)
     /\ (forall e, spdy_Stream w req = StreamBroken e -> v = (false, None))
     /\ (forall code out err, spdy_Stream w req = Exited code out err ->
           code <> 0%Z -> v = (false, None))
     /\ (forall out err, spdy_Stream w req = Exited 0 out err ->
           exists healthy, v = (healthy, None) /\
             (healthy = true <->
              health.ExpectedOutput opts = "" \/
              out = health.ExpectedOutput opts \/
              occursIn (health.ExpectedOutput opts) out))).
Proof.
  intros Hin v. subst v.
  destruct (exec_entered w c pod opts Hin) as (Hcmd & -> & Hstreams).
  apply String.eqb_neq in Hcmd.
  unfold health.execLayer. rewrite Hcmd. simpl. rewrite value_bind.
  split.
  - intros Hnone. unfold health.checkExecCommand.
    destruct Hnone as [Hnone | Hnone]; rewrite Hnone;
      [|destruct (health.k8sClient c)]; simpl; (split; [reflexivity | discriminate]).
  - intros first rest [k Hk] [rc Hrc] Hcs Hexec.
    set (req := execRequestOf c pod opts first) in *.
    assert (Hcheck :
      health.checkExecCommand w c pod (health.ExecCommand opts)
        (health.ContainerName opts) (health.ExpectedOutput opts)
      = (match health.stream_err (spdy_Stream w req) with
         | Some _ => (false, None)
         | None =>
             if negb (String.eqb (health.ExpectedOutput opts) "") then
               if negb (String.eqb (health.stream_stdout (spdy_Stream w req))
                          (health.ExpectedOutput opts))
                  && negb (health.contains (health.stream_stdout (spdy_Stream w req))
                             (health.ExpectedOutput opts))
               then (false, None) else (true, None)
             else (true, None)
         end, [Enter LayerExec; ExecStream req])).
    { unfold health.checkExecCommand. rewrite Hk, Hrc, Hcs.
      fold (execRequestOf c pod opts first). fold req. rewrite Hexec.
      destruct (health.stream_err (spdy_Stream w req)); [reflexivity|].
      destruct (negb (String.eqb (health.ExpectedOutput opts) "")); [|reflexivity].
      destruct (negb _ && negb _); reflexivity. }
    split; [|split; [|split]].
    + intros req'. rewrite Hstreams, Hcheck. simpl.
      rewrite !elem_of_cons, elem_of_nil.
      split; [intros [H | [H | []]]; [discriminate H | now injection H] |].
      intros ->. right. now left.
    + intros e He. rewrite Hcheck, He. reflexivity.
    + intros code out err Hs Hcode. rewrite Hcheck, Hs. simpl.
      apply Z.eqb_neq in Hcode. rewrite Hcode. reflexivity.
    + intros out err Hs. rewrite Hcheck, Hs. simpl.
      destruct (String.eqb_spec (health.ExpectedOutput opts) "") as [He | He]; simpl.
      * exists true. split; [reflexivity|]. split; [now left | reflexivity].
      * destruct (String.eqb_spec out (health.ExpectedOutput opts)) as [Ho | Ho]; simpl.
        -- exists true. split; [reflexivity|]. split; [now right; left | reflexivity].
        -- destruct (health.contains out (health.ExpectedOutput opts)) eqn:Hc; simpl.
           ++ exists true. split; [reflexivity|]. split; [|reflexivity].
              intros _. right. right. now apply contains_occurs.
           ++ exists false. split; [reflexivity|]. split; [discriminate|].
              intros [H | [H | H]]; [contradiction | contradiction |].
              apply contains_occurs in H. congruence.
Qed.

Lemma IsPodHealthy_exec_layer_witness :
  value (health.IsPodHealthy Examples.world_ok Examples.checker Examples.pod_ok
           (Examples.exec_only "ps aux | grep java" "" "java"))
  = (false, Some (wrapError "exec command check failed"
                    (errorString "kubernetes client not configured for exec checks")))
  /\ value (health.IsPodHealthy Examples.world_exit_2 Examples.exec_checker
              Examples.pod_ok (Examples.exec_only "ps aux | grep java" "" "java"))
     = (false, None)
  /\ (exists healthy,
        value (health.IsPodHealthy Examples.world_python Examples.exec_checker
                 Examples.pod_ok (Examples.exec_only "ps aux | grep java" "sidecar" "java"))
        = (healthy, None)
        /\ (healthy = true <->
            "java" = "" \/ "python" = "java" \/ occursIn "java" "python")).
Proof.
  split; [|split].
  - destruct (IsPodHealthy_exec_layer Examples.world_ok Examples.checker
                Examples.pod_ok (Examples.exec_only "ps aux | grep java" "" "java"))
      as (Hnone & _); [vm_compute; constructor|].
    apply Hnone. left. reflexivity.
  - destruct (IsPodHealthy_exec_layer Examples.world_exit_2 Examples.exec_checker
                Examples.pod_ok (Examples.exec_only "ps aux | grep java" "" "java"))
      as (_ & Hrun); [vm_compute; constructor|].
    destruct (Hrun {| Container_Name := "router" |} [{| Container_Name := "sidecar" |}])
      as (_ & _ & Hexit & _);
      [eexists; reflexivity | eexists; reflexivity | reflexivity | reflexivity |].
    apply (Hexit 2%Z "" ""); [reflexivity | discriminate].
  - destruct (IsPodHealthy_exec_layer Examples.world_python Examples.exec_checker
                Examples.pod_ok
                (Examples.exec_only "ps aux | grep java" "sidecar" "java"))
      as (_ & Hrun); [vm_compute; do 2 constructor|].
    destruct (Hrun {| Container_Name := "router" |} [{| Container_Name := "sidecar" |}])
      as (_ & _ & _ & Hzero);
      [eexists; reflexivity | eexists; reflexivity | reflexivity | reflexivity |].
    exact (Hzero "python" "" eq_refl).
Defined.

(** ** The reconciler *)

Import controller.

Lemma matchesFilter_never_deletes w r pod namespace name :
  ClientDelete namespace name ∉ trace (matchesFilter w r pod).
Proof.
  unfold matchesFilter, matchesLabelSelector, belongsToStatefulSet.
  repeat (simpl; break_match); simpl; intros Hin; refute_in Hin.
Qed.

(** A pod that does not match is left alone: no error, no retry, no
    delete. *)
Lemma Reconcile_no_match w r req pod :
  api_GetPod w (NamespacedName req) = Ok pod ->
  value (matchesFilter w r pod) = false ->
  value (Reconcile w r req) = (Result_empty, None)
  /\ (forall namespace name,
        ClientDelete namespace name ∉ trace (Reconcile w r req)).
Proof.
  intros Hget Hno. unfold Reconcile. rewrite Hget.
  pose proof (matchesFilter_never_deletes w r pod) as Hdel.
  destruct (matchesFilter w r pod) as [m t]. simpl in *. subst m. simpl.
  split; [reflexivity|].
  intros namespace name Hin.
  apply elem_of_cons in Hin as [Hin | Hin]; [discriminate Hin|].
  apply elem_of_app in Hin as [Hin | Hin]; [now apply Hdel in Hin|].
  refute_in Hin.
Qed.

(** C2, as the code has it. An error of the health evaluation and a
    delete error other than NotFound are not returned to the caller: the
    result asks for another reconcile after 10 seconds. A fetch error
    other than NotFound is returned to the caller, wrapped, with an
    empty result. *)
Theorem Reconcile_retryable_errors w r req :
  (forall err, api_GetPod w (NamespacedName req) = Err err ->
     errors.IsNotFound err = false ->
     value (Reconcile w r req)
     = (Result_empty, Some (wrapError "failed to get pod" err)))
  /\
  (forall pod healthy err,
     api_GetPod w (NamespacedName req) = Ok pod ->
     value (matchesFilter w r pod) = true ->
     value (health.IsPodHealthy w (HealthChecker r) pod (HealthCheckOptions r))
     = (healthy, Some err) ->
     value (Reconcile w r req) = (requeue_after_10s, None)
     /\ RequeueAfter requeue_after_10s = 10000000000%Z)
  /\
  (forall pod err,
     api_GetPod w (NamespacedName req) = Ok pod ->
     value (matchesFilter w r pod) = true ->
     value (health.IsPodHealthy w (HealthChecker r) pod (HealthCheckOptions r))
     = (false, None) ->
     api_Delete w pod = Some err ->
     errors.IsNotFound err = false ->
     value (Reconcile w r req) = (requeue_after_10s, None)).
Proof.
  split; [|split].
  - intros err Hget Hnf. unfold Reconcile. rewrite Hget, Hnf. reflexivity.
  - intros pod healthy err Hget Hm Hh. split; [|reflexivity].
    unfold Reconcile. rewrite Hget.
    rewrite (IO_eta (matchesFilter w r pod)), Hm.
    rewrite (IO_eta (health.IsPodHealthy _ _ _ _)), Hh. reflexivity.
  - intros pod err Hget Hm Hh Hdel Hnf.
    unfold Reconcile. rewrite Hget.
    rewrite (IO_eta (matchesFilter w r pod)), Hm.
    rewrite (IO_eta (health.IsPodHealthy _ _ _ _)), Hh.
    rewrite Hdel, Hnf. simpl.
    destruct (negb (health.CheckPodStatus (HealthChecker r) pod)); reflexivity.
Qed.

Lemma Reconcile_retryable_errors_witness :
  value (Reconcile Examples.world_fetch_fails
           (Examples.reconciler "druid-router" "" Examples.no_checks)
           Examples.request)
  = (Result_empty, Some (wrapError "failed to get pod" Examples.internal_error))
  /\ value (Reconcile Examples.world_no_ip
              (Examples.reconciler "druid-router" "" (Examples.http_only "/health"))
              Examples.request)
     = (requeue_after_10s, None)
  /\ value (Reconcile Examples.world_delete_fails
              (Examples.reconciler "druid-router" "" Examples.no_checks)
              Examples.request)
     = (requeue_after_10s, None).
Proof.
  split; [|split].
  - destruct (Reconcile_retryable_errors Examples.world_fetch_fails
                (Examples.reconciler "druid-router" "" Examples.no_checks)
                Examples.request) as (Hfetch & _ & _).
    apply Hfetch; reflexivity.
  - destruct (Reconcile_retryable_errors Examples.world_no_ip
                (Examples.reconciler "druid-router" "" (Examples.http_only "/health"))
                Examples.request) as (_ & Hhealth & _).
    apply (Hhealth Examples.pod_no_ip false
             (wrapError "http health check failed"
                (errorString "pod IP is not available")));
      [reflexivity | vm_compute; reflexivity | reflexivity].
  - destruct (Reconcile_retryable_errors Examples.world_delete_fails
                (Examples.reconciler "druid-router" "" Examples.no_checks)
                Examples.request) as (_ & _ & Hdelete).
    apply (Hdelete Examples.pod_not_ready Examples.internal_error);
      [reflexivity | vm_compute; reflexivity | reflexivity | reflexivity | reflexivity].
Defined.

(** C2 as it is written fails for the fetch: an error of the API server
    other than NotFound is returned to the caller, and the result asks
    for no delay. *)
Lemma Reconcile_returns_fetch_error :
  api_GetPod Examples.world_fetch_fails (NamespacedName Examples.request)
  = Err Examples.internal_error
  /\ errors.IsNotFound Examples.internal_error = false
  /\ snd (value (Reconcile Examples.world_fetch_fails
                   (Examples.reconciler "druid-router" "" Examples.no_checks)
                   Examples.request))
     = Some (wrapError "failed to get pod" Examples.internal_error)
  /\ RequeueAfter (fst (value (Reconcile Examples.world_fetch_fails
                   (Examples.reconciler "druid-router" "" Examples.no_checks)
                   Examples.request))) = 0%Z.
Proof. repeat split. Qed.

(** C7. For an unhealthy pod, a delete answered NotFound ends the
    reconcile as a successful delete does: with the empty result, no
    error and no retry, once the delete call is made. *)
Theorem Reconcile_delete_idempotent w r req pod :
  api_GetPod w (NamespacedName req) = Ok pod ->
  value (matchesFilter w r pod) = true ->
  value (health.IsPodHealthy w (HealthChecker r) pod (HealthCheckOptions r))
  = (false, None) ->
  (api_Delete w pod = None \/
   exists err, api_Delete w pod = Some err /\ errors.IsNotFound err = true) ->
  value (Reconcile w r req) = (Result_empty, None)
  /\ ClientDelete (corev1.Namespace pod) (Name pod) ∈ trace (Reconcile w r req).
Proof.
  intros Hget Hm Hh Hdel. unfold Reconcile. rewrite Hget.
  rewrite (IO_eta (matchesFilter w r pod)), Hm.
  rewrite (IO_eta (health.IsPodHealthy _ _ _ _)), Hh.
  destruct Hdel as [Hdel | (err & Hdel & Hnf)]; rewrite Hdel; [|rewrite Hnf];
    simpl; destruct (negb (health.CheckPodStatus (HealthChecker r) pod)); simpl;
    (split; [reflexivity|]);
    repeat first [ apply list_elem_of_here
                 | apply list_elem_of_further
                 | apply elem_of_app; right ].
Qed.

Lemma Reconcile_delete_idempotent_witness :
  value (Reconcile Examples.world_delete_gone
           (Examples.reconciler "druid-router" "app=router" Examples.no_checks)
           Examples.request)
  = (Result_empty, None).
Proof.
  apply (Reconcile_delete_idempotent Examples.world_delete_gone
           (Examples.reconciler "druid-router" "app=router" Examples.no_checks)
           Examples.request Examples.pod_not_ready).
  - reflexivity.
  - vm_compute; reflexivity.
  - reflexivity.
  - right. exists Examples.not_found. split; reflexivity.
Defined.

(** ** The filter *)

(** C8. With a stateful set name configured, every way the lookup of its
    selector can fail makes [matchesFilter] answer [false]: the fetch of
    the stateful set fails (the error is logged), the set has no selector,
    or the selector cannot be converted (the error is logged). Such a pod
    is excluded and the reconcile ends with the empty result and no
    error, without a delete. *)
Theorem matchesFilter_fails_closed w r pod :
  StatefulSetName r <> "" ->
  let key := {| types.Namespace := Namespace r; types.Name := StatefulSetName r |} in
  (forall err, api_GetStatefulSet w key = Err err ->
     matchesFilter w r pod
     = (false, [ClientGetStatefulSet key; LogError err "Failed to get StatefulSet"]))
  /\
  (forall set, api_GetStatefulSet w key = Ok set ->
     appsv1.Spec_Selector set = None ->
     value (matchesFilter w r pod) = false)
  /\
  (forall set ls err, api_GetStatefulSet w key = Ok set ->
     appsv1.Spec_Selector set = Some ls ->
     metav1_LabelSelectorAsSelector w ls = Err err ->
     matchesFilter w r pod
     = (false, [ClientGetStatefulSet key; LogError err "Failed to create selector"]))
  /\
  (forall req, api_GetPod w (NamespacedName req) = Ok pod ->
     value (matchesFilter w r pod) = false ->
     value (Reconcile w r req) = (Result_empty, None)
     /\ (forall namespace name,
           ClientDelete namespace name ∉ trace (Reconcile w r req))).
Proof.
  intros Hname key. apply String.eqb_neq in Hname.
  unfold matchesFilter, belongsToStatefulSet. rewrite Hname. simpl. fold key.
  split; [|split; [|split]].
  - intros err Hget. rewrite Hget. reflexivity.
  - intros set Hget Hsel. rewrite Hget, Hsel. reflexivity.
  - intros set ls err Hget Hsel Hconv. rewrite Hget, Hsel, Hconv. reflexivity.
  - intros req Hget Hno. apply (Reconcile_no_match w r req pod); [exact Hget|].
    unfold matchesFilter, belongsToStatefulSet. rewrite Hname. exact Hno.
Qed.

Lemma matchesFilter_fails_closed_witness :
  value (matchesFilter Examples.world_set_lookup_fails
           (Examples.reconciler "druid-router" "app=router" Examples.no_checks)
           Examples.pod_ok) = false
  /\ value (Reconcile Examples.world_set_lookup_fails
              (Examples.reconciler "druid-router" "app=router" Examples.no_checks)
              Examples.request) = (Result_empty, None).
Proof.
  destruct (matchesFilter_fails_closed Examples.world_set_lookup_fails
              (Examples.reconciler "druid-router" "app=router" Examples.no_checks)
              Examples.pod_ok) as (Hget & _ & _ & Hdone); [discriminate|].
  split.
  - rewrite (Hget Examples.internal_error eq_refl). reflexivity.
  - apply (Hdone Examples.request); [reflexivity|].
    rewrite (Hget Examples.internal_error eq_refl). reflexivity.
Defined.

Lemma Matches_equality_terms (terms : list (string * string))
    (ls : gmap string string) :
  labels.Matches ((fun kv => labels.EqualityTerm kv.1 kv.2) <$> terms) ls = true <->
  forall key value, (key, value) ∈ terms -> ls !! key = Some value.
Proof.
  unfold labels.Matches. rewrite forallb_forall. split.
  - intros H key value Hin.
    specialize (H (labels.EqualityTerm key value)). simpl in H.
    destruct (ls !! key) as [v|].
    + f_equal. apply String.eqb_eq. apply H.
      apply list_elem_of_In, list_elem_of_fmap. now exists (key, value).
    + discriminate H.
      apply list_elem_of_In, list_elem_of_fmap. now exists (key, value).
  - intros H req Hin.
    apply list_elem_of_In, list_elem_of_fmap in Hin as ([key value] & -> & Hin).
    simpl. rewrite (H key value Hin). apply String.eqb_refl.
Qed.

Lemma Matches_permutation (s1 s2 : list labels.Requirement)
    (ls : gmap string string) :
  s1 ≡ₚ s2 -> labels.Matches s1 ls = labels.Matches s2 ls.
Proof.
  unfold labels.Matches.
  induction 1 as [|x l1 l2 _ IH|x y l|l1 l2 l3 _ IH1 _ IH2]; simpl.
  - reflexivity.
  - now rewrite IH.
  - destruct (labels.Requirement_Matches x ls), (labels.Requirement_Matches y ls);
      reflexivity.
  - now rewrite IH1.
Qed.

(** C6. With both a stateful set name and a label selector configured,
    [matchesFilter] answers [true] exactly when the pod belongs to the
    stateful set and the parsed selector matches its labels. With the
    label selector alone, when the expression parses to equality terms
    (in any order), [matchesFilter] answers [true] exactly when the label
    set of the pod has every term's key with the term's value. *)
Theorem matchesFilter_intersection w r pod :
  (StatefulSetName r <> "" -> PodLabelSelector r <> "" ->
   (value (matchesFilter w r pod) = true <->
    value (belongsToStatefulSet w r pod) = true /\
    exists selector, labels_Parse w (PodLabelSelector r) = Ok selector /\
      labels.Matches selector (Labels pod) = true))
  /\
  (StatefulSetName r = "" -> PodLabelSelector r <> "" ->
   forall selector terms,
     labels_Parse w (PodLabelSelector r) = Ok selector ->
     selector ≡ₚ (fun kv => labels.EqualityTerm kv.1 kv.2) <$> terms ->
     (value (matchesFilter w r pod) = true <->
      forall key value, (key, value) ∈ terms -> Labels pod !! key = Some value)).
Proof.
  split.
  - intros Hset Hsel.
    apply String.eqb_neq in Hset. apply String.eqb_neq in Hsel.
    unfold matchesFilter, matchesLabelSelector. rewrite Hset, Hsel. simpl.
    rewrite value_bind.
    destruct (value (belongsToStatefulSet w r pod)); simpl.
    + destruct (labels_Parse w (PodLabelSelector r)) as [selector | err]; simpl.
      * destruct (labels.Matches selector (Labels pod)) eqn:Hm; simpl.
        -- split; [intros _ | reflexivity]. split; [reflexivity|]. now exists selector.
        -- split; [discriminate|]. intros (_ & s' & Hs' & Hm').
           injection Hs' as <-. congruence.
      * split; [discriminate|]. intros (_ & s' & Hs' & _). discriminate Hs'.
    + split; [discriminate | intros [H _]; discriminate H].
  - intros Hset Hsel selector terms Hparse Hperm.
    apply String.eqb_neq in Hsel.
    unfold matchesFilter, matchesLabelSelector. rewrite Hset, Hsel, Hparse. simpl.
    rewrite <- Matches_equality_terms, <- (Matches_permutation _ _ _ Hperm).
    destruct (labels.Matches selector (Labels pod)); simpl; tauto.
Qed.

Lemma matchesFilter_intersection_witness :
  (value (matchesFilter Examples.world_ok
            (Examples.reconciler "druid-router" "app=router" Examples.no_checks)
            Examples.pod_ok) = true <->
   value (belongsToStatefulSet Examples.world_ok
            (Examples.reconciler "druid-router" "app=router" Examples.no_checks)
            Examples.pod_ok) = true /\
   exists selector, labels_Parse Examples.world_ok "app=router" = Ok selector /\
     labels.Matches selector (Labels Examples.pod_ok) = true)
  /\
  (value (matchesFilter Examples.world_ok
            (Examples.reconciler "" "app=router" Examples.no_checks)
            Examples.pod_ok) = true <->
   forall key value, (key, value) ∈ [("app", "router")] ->
     Labels Examples.pod_ok !! key = Some value).
Proof.
  split.
  - destruct (matchesFilter_intersection Examples.world_ok
                (Examples.reconciler "druid-router" "app=router" Examples.no_checks)
                Examples.pod_ok) as (Hboth & _).
    apply Hboth; discriminate.
  - destruct (matchesFilter_intersection Examples.world_ok
                (Examples.reconciler "" "app=router" Examples.no_checks)
                Examples.pod_ok) as (_ & Hlabels).
    apply (Hlabels eq_refl ltac:(discriminate)
             [labels.EqualityTerm "app" "router"] [("app", "router")]);
      reflexivity.
Defined.

(** * Further properties of the checker *)

(** [contains] decides whether [substr] occurs in [s]: the empty string
    occurs in every string, every string in itself, and an occurrence is
    found wherever it lies. *)
Theorem contains_substring (s substr : string) :
  (health.contains s substr = true <-> occursIn substr s)
  /\ health.contains s "" = true
  /\ health.contains s s = true
  /\ (forall p q, health.contains (p +:+ substr +:+ q) substr = true).
Proof.
  split; [apply contains_occurs|]. split; [|split].
  - apply contains_occurs. exists "", s. reflexivity.
  - apply contains_occurs. exists "", "". rewrite append_empty_l.
    induction s as [|a s IH]; [reflexivity|].
    rewrite append_cons. f_equal. exact IH.
  - intros p q. apply contains_occurs. exists p, q. reflexivity.
Qed.

(** With no optional layer configured, [IsPodHealthy] is the status
    checks alone: healthy exactly when the phase is Running and no Ready
    condition is other than True, never an error, and no call made. *)
Theorem IsPodHealthy_status_only w c pod opts :
  health.HTTPCheckURL opts = "" ->
  (health.TCPPort opts <= 0)%Z ->
  health.ExecCommand opts = "" ->
  exists healthy,
    health.IsPodHealthy w c pod opts = ((healthy, None), [])
    /\ (healthy = true <->
        Phase (Status pod) = PodRunning
        /\ (forall condition, condition ∈ Conditions (Status pod) ->
              Type_ condition = PodReady -> Status_ condition = ConditionTrue)).
Proof.
  intros Hhttp Htcp Hexec.
  unfold health.IsPodHealthy, health.httpLayer, health.tcpLayer, health.execLayer.
  rewrite Hhttp, Hexec. apply Z.ltb_ge in Htcp. rewrite Htcp. simpl.
  destruct (String.eqb_spec (Phase (Status pod)) PodRunning) as [Hphase | Hphase];
    simpl.
  - destruct (health.readyConditions (Conditions (Status pod))) eqn:Hready; simpl.
    + exists true. split; [reflexivity|]. split; [intros _ | reflexivity].
      split; [exact Hphase|]. intros condition Hin Hty.
      destruct (String.eqb_spec (Status_ condition) ConditionTrue) as [Hs | Hs];
        [exact Hs|].
      assert (health.readyConditions (Conditions (Status pod)) = false)
        by (apply readyConditions_false; now exists condition).
      congruence.
    + exists false. split; [reflexivity|]. split; [discriminate|].
      intros [_ Hall]. apply readyConditions_false in Hready
        as (condition & Hin & Hty & Hs).
      now apply Hall in Hin.
  - exists false. split; [reflexivity|]. split; [discriminate|].
    intros [Hrun _]. contradiction.
Qed.

Lemma IsPodHealthy_status_only_witness :
  exists healthy,
    health.IsPodHealthy Examples.world_http_503 Examples.checker
      Examples.pod_not_ready Examples.no_checks = ((healthy, None), [])
    /\ (healthy = true <->
        Phase (Status Examples.pod_not_ready) = PodRunning
        /\ (forall condition,
              condition ∈ Conditions (Status Examples.pod_not_ready) ->
              Type_ condition = PodReady -> Status_ condition = ConditionTrue)).
Proof.
  apply (IsPodHealthy_status_only Examples.world_http_503 Examples.checker
           Examples.pod_not_ready Examples.no_checks);
    [reflexivity | simpl; lia | reflexivity].
Defined.

Lemma statusPasses_true (pod : Pod) :
  statusPasses pod = true <->
  Phase (Status pod) = PodRunning /\
  health.readyConditions (Conditions (Status pod)) = true.
Proof.
  unfold statusPasses. rewrite andb_true_iff, String.eqb_eq. reflexivity.
Qed.

(** The verdict and the trace once the HTTP layer is behind. *)
Lemma httpLayer_passed w c pod opts :
  httpPasses w pod opts ->
  exists pre,
    (forall e, e ∈ pre -> layerOf e = Some LayerHTTP)
    /\ health.httpLayer w c pod opts
       = (value (health.tcpLayer w c pod opts),
          pre ++ trace (health.tcpLayer w c pod opts)).
Proof.
  intros [Hoff | Hpass]; unfold health.httpLayer.
  - rewrite Hoff. simpl. exists []. split; [intros e He; inversion He|].
    simpl. apply IO_eta.
  - destruct (String.eqb (health.HTTPCheckURL opts) ""); simpl.
    + exists []. split; [intros e He; inversion He|]. simpl. apply IO_eta.
    + exists (trace (health.checkHTTPHealth w pod (health.HTTPCheckURL opts))).
      split.
      * intros e. unfold health.checkHTTPHealth.
        repeat (simpl; break_match); simpl; intros He;
          repeat (apply elem_of_cons in He as [-> | He]; [reflexivity|]);
          inversion He.
      * rewrite (IO_eta (health.checkHTTPHealth _ _ _)), Hpass. simpl.
        destruct (health.tcpLayer w c pod opts); reflexivity.
Qed.

Lemma tcpLayer_passed w c pod opts :
  tcpPasses w c pod opts ->
  exists pre,
    (forall e, e ∈ pre -> layerOf e = Some LayerTCP)
    /\ health.tcpLayer w c pod opts
       = (value (health.execLayer w c pod opts),
          pre ++ trace (health.execLayer w c pod opts)).
Proof.
  intros [Hoff | Hpass]; unfold health.tcpLayer.
  - apply Z.ltb_ge in Hoff. rewrite Hoff. exists [].
    split; [intros e He; inversion He|]. simpl. apply IO_eta.
  - destruct (0 <? health.TCPPort opts)%Z; simpl.
    + exists (trace (health.checkTCPPort w c pod (health.TCPPort opts))).
      split.
      * intros e. unfold health.checkTCPPort.
        repeat (simpl; break_match); simpl; intros He;
          repeat (apply elem_of_cons in He as [-> | He]; [reflexivity|]);
          inversion He.
      * rewrite (IO_eta (health.checkTCPPort _ _ _ _)), Hpass. simpl.
        destruct (health.execLayer w c pod opts); reflexivity.
    + exists []. split; [intros e He; inversion He|]. simpl. apply IO_eta.
Qed.

Lemma execLayer_events w c pod opts e :
  e ∈ trace (health.execLayer w c pod opts) -> layerOf e = Some LayerExec.
Proof.
  unfold health.execLayer, health.checkExecCommand.
  repeat (simpl; break_match); simpl; intros He;
    repeat (apply elem_of_cons in He as [-> | He]; [reflexivity|]);
    inversion He.
Qed.

(** The TCP layer. With the status checks and the HTTP layer passed and
    a port above zero configured: an empty pod address ends the
    evaluation with an error and no dial; otherwise [<address>:<port>] is
    dialled once with the timeout of the checker, a failed dial is the
    verdict unhealthy with no error and no exec check, and a successful
    one hands the verdict to the exec layer. *)
Theorem IsPodHealthy_tcp_layer w c pod opts :
  statusPasses pod = true ->
  httpPasses w pod opts ->
  (0 < health.TCPPort opts)%Z ->
  let address := PodIP (Status pod) +:+ ":" +:+ pretty (health.TCPPort opts) in
  let r := health.IsPodHealthy w c pod opts in
  (PodIP (Status pod) = "" ->
   value r = (false, Some (wrapError "tcp port check failed"
                             (errorString "pod IP is not available")))
   /\ (forall a, TCPDial a ∉ trace r))
  /\
  (PodIP (Status pod) <> "" ->
   (forall a, TCPDial a ∈ trace r <-> a = address)
   /\ (forall e, net_Dial w (health.timeout c) address = Err e ->
         value r = (false, None) /\ invoked LayerExec (trace r) = false)
   /\ (net_Dial w (health.timeout c) address = Ok tt ->
         value r = value (health.execLayer w c pod opts))).
Proof.
  intros Hstatus Hhttp Hport address r. subst r.
  apply statusPasses_true in Hstatus as [Hphase Hready].
  rewrite (IsPodHealthy_status_passes w c pod opts Hphase Hready).
  destruct (httpLayer_passed w c pod opts Hhttp) as (pre & Hpre & ->).
  assert (Hnodial : forall a, TCPDial a ∉ pre).
  { intros a Ha. apply Hpre in Ha. discriminate Ha. }
  assert (Hnoexec : forall t, invoked LayerExec (pre ++ t) = invoked LayerExec t).
  { intros t. unfold invoked. rewrite existsb_app.
    replace (existsb _ pre) with false; [reflexivity|].
    symmetry. apply not_true_iff_false. intros Hex.
    apply existsb_exists in Hex as (e & He & Hl).
    apply list_elem_of_In, Hpre in He. rewrite He in Hl.
    apply bool_decide_eq_true in Hl. discriminate Hl. }
  unfold value, trace; simpl.
  apply Z.ltb_lt in Hport.
  unfold health.tcpLayer, health.checkTCPPort. rewrite Hport. simpl. fold address.
  split.
  - intros Hip. rewrite Hip. simpl. split; [reflexivity|].
    intros a Ha. apply elem_of_app in Ha as [Ha | Ha]; [now apply Hnodial in Ha|].
    refute_in Ha.
  - intros Hip. apply String.eqb_neq in Hip. rewrite Hip. simpl.
    destruct (net_Dial w (health.timeout c) address) as [[]|err] eqn:Hdial; simpl.
    + pose proof (execLayer_events w c pod opts) as Hexec.
      destruct (health.execLayer w c pod opts) as [v t]. simpl in *.
      split; [|split; [discriminate | reflexivity]].
      intros a. rewrite elem_of_app, !elem_of_cons. split.
      * intros [Ha | [Ha | [Ha | Ha]]];
          [now apply Hnodial in Ha | discriminate Ha | now injection Ha |].
        apply Hexec in Ha. discriminate Ha.
      * intros ->. right. right. now left.
    + split; [|split; [intros e _ | discriminate]].
      * intros a. rewrite elem_of_app, !elem_of_cons, elem_of_nil. split.
        -- intros [Ha | [Ha | [Ha | []]]];
             [now apply Hnodial in Ha | discriminate Ha | now injection Ha].
        -- intros ->. right. right. now left.
      * split; [reflexivity|]. rewrite Hnoexec. reflexivity.
Qed.

Lemma IsPodHealthy_tcp_layer_witness :
  value (health.IsPodHealthy Examples.world_ok Examples.checker Examples.pod_no_ip
           {| health.HTTPCheckURL := ""; health.ExecCommand := "";
              health.TCPPort := 8080; health.ContainerName := "";
              health.ExpectedOutput := "" |})
  = (false, Some (wrapError "tcp port check failed"
                    (errorString "pod IP is not available")))
  /\ value (health.IsPodHealthy Examples.world_tcp_closed Examples.exec_checker
              Examples.pod_ok Examples.all_checks) = (false, None)
  /\ (forall a, TCPDial a ∈ trace (health.IsPodHealthy Examples.world_ok
                   Examples.exec_checker Examples.pod_ok Examples.all_checks)
                <-> a = "10.0.0.1:8080").
Proof.
  split; [|split].
  - destruct (IsPodHealthy_tcp_layer Examples.world_ok Examples.checker
                Examples.pod_no_ip
                {| health.HTTPCheckURL := ""; health.ExecCommand := "";
                   health.TCPPort := 8080; health.ContainerName := "";
                   health.ExpectedOutput := "" |})
      as (Hempty & _); [reflexivity | now left | reflexivity |].
    apply Hempty. reflexivity.
  - destruct (IsPodHealthy_tcp_layer Examples.world_tcp_closed Examples.exec_checker
                Examples.pod_ok Examples.all_checks)
      as (_ & Hdial); [reflexivity | right; reflexivity | reflexivity |].
    destruct (Hdial ltac:(discriminate)) as (_ & Hclosed & _).
    apply (Hclosed (errorString "connection refused")). reflexivity.
  - destruct (IsPodHealthy_tcp_layer Examples.world_ok Examples.exec_checker
                Examples.pod_ok Examples.all_checks)
      as (_ & Hdial); [reflexivity | right; reflexivity | reflexivity |].
    destruct (Hdial ltac:(discriminate)) as (Hwhere & _ & _).
    exact Hwhere.
Defined.

Lemma execLayer_healthy w c pod opts :
  value (health.execLayer w c pod opts) = (true, None) <-> execPasses w c pod opts.
Proof.
  unfold health.execLayer, execPasses.
  destruct (String.eqb_spec (health.ExecCommand opts) "") as [Hoff | Hon]; simpl.
  - split; [now left | reflexivity].
  - rewrite value_bind.
    destruct (value (health.checkExecCommand w c pod _ _ _)) as [[|] [err|]]; simpl;
      (split; [first [discriminate | now right] | intros [H | H]; congruence]).
Qed.

Lemma tcpLayer_healthy w c pod opts :
  value (health.tcpLayer w c pod opts) = (true, None) <->
  tcpPasses w c pod opts /\ execPasses w c pod opts.
Proof.
  unfold health.tcpLayer, tcpPasses. rewrite <- execLayer_healthy.
  destruct (Z.ltb_spec 0 (health.TCPPort opts)) as [Hon | Hoff].
  - rewrite value_bind.
    destruct (value (health.checkTCPPort w c pod _)) as [[|] [err|]]; simpl;
      (split; [first [discriminate | intros H; split; [now right | exact H]]
              | intros [[H | H] H']; try lia; try congruence]).
  - split; [intros H; split; [now left | exact H] | now intros [_ H]].
Qed.

Lemma httpLayer_healthy w c pod opts :
  value (health.httpLayer w c pod opts) = (true, None) <->
  httpPasses w pod opts /\ tcpPasses w c pod opts /\ execPasses w c pod opts.
Proof.
  unfold health.httpLayer, httpPasses. rewrite <- tcpLayer_healthy.
  destruct (String.eqb_spec (health.HTTPCheckURL opts) "") as [Hoff | Hon]; simpl.
  - split; [intros H; split; [now left | exact H] | now intros [_ H]].
  - rewrite value_bind.
    destruct (value (health.checkHTTPHealth w pod _)) as [[|] [err|]]; simpl;
      (split; [first [discriminate | intros H; split; [now right | exact H]]
              | intros [[H | H] H']; congruence]).
Qed.

(** [IsPodHealthy] answers healthy exactly when the status checks pass
    and every configured layer passes: each of HTTP, TCP and exec is
    either not configured or its check answers [(true, nil)]. *)
Theorem IsPodHealthy_healthy_iff w c pod opts :
  value (health.IsPodHealthy w c pod opts) = (true, None) <->
  statusPasses pod = true /\ httpPasses w pod opts /\
  tcpPasses w c pod opts /\ execPasses w c pod opts.
Proof.
  rewrite <- httpLayer_healthy. unfold health.IsPodHealthy, statusPasses.
  destruct (String.eqb _ PodRunning); simpl.
  - destruct (health.readyConditions _); simpl.
    + split; [intros H; split; [reflexivity | exact H] | now intros [_ H]].
    + split; [discriminate | intros [H _]; discriminate H].
  - split; [discriminate | intros [H _]; discriminate H].
Qed.


Lemma execLayer_error w c pod opts e :
  snd (value (health.execLayer w c pod opts)) = Some e ->
  fst (value (health.execLayer w c pod opts)) = false /\ execError w c pod opts e.
Proof.
  unfold health.execLayer, execError.
  destruct (String.eqb_spec (health.ExecCommand opts) "") as [Hoff | Hon]; simpl;
    [discriminate|].
  rewrite value_bind.
  destruct (value (health.checkExecCommand w c pod _ _ _)) as [[|] [err|]]; simpl;
    try discriminate;
    (intros [= <-]; split; [reflexivity|]; split; [exact Hon|];
     exists err; split; reflexivity).
Qed.

Lemma tcpLayer_error w c pod opts e :
  snd (value (health.tcpLayer w c pod opts)) = Some e ->
  fst (value (health.tcpLayer w c pod opts)) = false
  /\ (tcpError w c pod opts e \/ execError w c pod opts e).
Proof.
  unfold health.tcpLayer, tcpError.
  destruct (Z.ltb_spec 0 (health.TCPPort opts)) as [Hon | Hoff].
  - rewrite value_bind.
    destruct (value (health.checkTCPPort w c pod _)) as [[|] [err|]]; simpl;
      try discriminate.
    1, 3: intros [= <-]; split; [reflexivity|]; left; split; [exact Hon|];
          exists err; split; reflexivity.
    intros H. apply execLayer_error in H as [H1 H2]. split; [exact H1 | now right].
  - intros H. apply execLayer_error in H as [H1 H2]. split; [exact H1 | now right].
Qed.

Lemma httpLayer_error w c pod opts e :
  snd (value (health.httpLayer w c pod opts)) = Some e ->
  fst (value (health.httpLayer w c pod opts)) = false
  /\ (httpError w pod opts e \/ tcpError w c pod opts e \/ execError w c pod opts e).
Proof.
  unfold health.httpLayer, httpError.
  destruct (String.eqb_spec (health.HTTPCheckURL opts) "") as [Hoff | Hon]; simpl.
  - intros H. apply tcpLayer_error in H as [H1 H2]. split; [exact H1 | now right].
  - rewrite value_bind.
    destruct (value (health.checkHTTPHealth w pod _)) as [[|] [err|]]; simpl;
      try discriminate.
    1, 3: intros [= <-]; split; [reflexivity|]; left; split; [exact Hon|];
          exists err; split; reflexivity.
    intros H. apply tcpLayer_error in H as [H1 H2]. split; [exact H1 | now right].
Qed.

Lemma IsPodHealthy_error_from_check w c pod opts e :
  snd (value (health.IsPodHealthy w c pod opts)) = Some e ->
  fst (value (health.IsPodHealthy w c pod opts)) = false
  /\ (httpError w pod opts e \/ tcpError w c pod opts e \/ execError w c pod opts e).
Proof.
  unfold health.IsPodHealthy.
  destruct (negb (String.eqb _ PodRunning)); [discriminate|].
  destruct (negb (health.readyConditions _)); [discriminate|].
  apply httpLayer_error.
Qed.

Lemma checkHTTPHealth_error w pod url inner :
  snd (value (health.checkHTTPHealth w pod url)) = Some inner ->
  (PodIP (Status pod) = "" /\ inner = errorString "pod IP is not available")
  \/ (exists err,
        http_NewRequest w "GET" ("http://" +:+ PodIP (Status pod) +:+ ":8080" +:+ url)
        = Err err
        /\ inner = wrapError "failed to create request" err).
Proof.
  unfold health.checkHTTPHealth. rewrite bind_emit. unfold value at 1. simpl.
  destruct (String.eqb_spec (PodIP (Status pod)) "") as [Hip | Hip]; simpl.
  - intros [= <-]. now left.
  - destruct (http_NewRequest w "GET" _) as [u | err]; simpl.
    + destruct (http_Do w _); discriminate.
    + intros [= <-]. right. now exists err.
Qed.

Lemma checkTCPPort_error w c pod port inner :
  snd (value (health.checkTCPPort w c pod port)) = Some inner ->
  PodIP (Status pod) = "" /\ inner = errorString "pod IP is not available".
Proof.
  unfold health.checkTCPPort. rewrite bind_emit. unfold value at 1. simpl.
  destruct (String.eqb_spec (PodIP (Status pod)) "") as [Hip | Hip]; simpl.
  - intros [= <-]. now split.
  - destruct (net_Dial w _ _); discriminate.
Qed.

Lemma checkExecCommand_error w c pod opts inner :
  snd (value (health.checkExecCommand w c pod (health.ExecCommand opts)
                (health.ContainerName opts) (health.ExpectedOutput opts)))
  = Some inner ->
  ((health.k8sClient c = None \/ health.restConfig c = None)
   /\ inner = errorString "kubernetes client not configured for exec checks")
  \/ (Containers (Spec pod) = []
      /\ inner = errorString "pod has no containers")
  \/ (exists first rest err,
        Containers (Spec pod) = first :: rest
        /\ spdy_NewExecutor w (execRequestOf c pod opts first) = Err err
        /\ inner = wrapError "failed to create executor" err).
Proof.
  unfold health.checkExecCommand. rewrite bind_emit. unfold value at 1. simpl.
  destruct (health.k8sClient c) as [k|]; [destruct (health.restConfig c) as [rc|]|];
    simpl.
  2, 3: intros [= <-]; left; split; [auto | reflexivity].
  destruct (Containers (Spec pod)) as [|first rest]; simpl.
  - intros [= <-]. right. left. now split.
  - fold (execRequestOf c pod opts first).
    destruct (spdy_NewExecutor w _) as [u | err] eqn:He; simpl.
    + repeat (simpl; break_match); discriminate.
    + intros [= <-]. right. right. exists first, rest, err. now repeat split.
Qed.

(** What [IsPodHealthy] reports as an error, and nothing else: an empty
    pod address under a configured HTTP or TCP check, an HTTP request
    that cannot be built, an exec check without client or without
    configuration, a pod without declared containers, an executor that
    cannot be created. The verdict that comes with an error is [false];
    an unreachable endpoint, a refused connection, a bad status and a
    failed command are never errors. *)
Theorem IsPodHealthy_error_causes w c pod opts e :
  snd (value (health.IsPodHealthy w c pod opts)) = Some e ->
  fst (value (health.IsPodHealthy w c pod opts)) = false
  /\ ((health.HTTPCheckURL opts <> "" /\ PodIP (Status pod) = "" /\
       e = wrapError "http health check failed"
             (errorString "pod IP is not available"))
      \/ (health.HTTPCheckURL opts <> "" /\ exists err,
            http_NewRequest w "GET"
              ("http://" +:+ PodIP (Status pod) +:+ ":8080" +:+ health.HTTPCheckURL opts)
            = Err err
            /\ e = wrapError "http health check failed"
                     (wrapError "failed to create request" err))
      \/ ((0 < health.TCPPort opts)%Z /\ PodIP (Status pod) = "" /\
          e = wrapError "tcp port check failed"
                (errorString "pod IP is not available"))
      \/ (health.ExecCommand opts <> "" /\
          (health.k8sClient c = None \/ health.restConfig c = None) /\
          e = wrapError "exec command check failed"
                (errorString "kubernetes client not configured for exec checks"))
      \/ (health.ExecCommand opts <> "" /\ Containers (Spec pod) = [] /\
          e = wrapError "exec command check failed"
                (errorString "pod has no containers"))
      \/ (health.ExecCommand opts <> "" /\ exists first rest err,
            Containers (Spec pod) = first :: rest
            /\ spdy_NewExecutor w (execRequestOf c pod opts first) = Err err
            /\ e = wrapError "exec command check failed"
                     (wrapError "failed to create executor" err))).
Proof.
  intros H. apply IsPodHealthy_error_from_check in H as [Hfalse Hcause].
  split; [exact Hfalse|].
  destruct Hcause as [(Hon & inner & Hin & ->) | [(Hon & inner & Hin & ->)
                     | (Hon & inner & Hin & ->)]].
  - apply checkHTTPHealth_error in Hin as [[Hip ->] | (err & Hreq & ->)].
    + left. auto.
    + right. left. split; [exact Hon|]. now exists err.
  - apply checkTCPPort_error in Hin as [Hip ->]. do 2 right. left. auto.
  - apply checkExecCommand_error in Hin
      as [[Hnone ->] | [[Hnil ->] | (first & rest & err & Hcs & Hex & ->)]].
    + do 3 right. left. auto.
    + do 4 right. left. auto.
    + do 5 right. split; [exact Hon|]. exists first, rest, err. auto.
Qed.

Lemma IsPodHealthy_error_causes_witness :
  fst (value (health.IsPodHealthy Examples.world_ok Examples.checker Examples.pod_no_ip
                (Examples.http_only "/health"))) = false.
Proof.
  apply (IsPodHealthy_error_causes Examples.world_ok Examples.checker
           Examples.pod_no_ip (Examples.http_only "/health")
           (wrapError "http health check failed"
              (errorString "pod IP is not available"))).
  reflexivity.
Defined.

(** A layer that is not configured is never invoked, and none is invoked
    before the status checks pass: an HTTP event needs a check path, a
    TCP event a port above zero, an exec event a command. *)
Theorem IsPodHealthy_invokes_only_configured w c pod opts l :
  invoked l (trace (health.IsPodHealthy w c pod opts)) = true ->
  statusPasses pod = true
  /\ match l with
     | LayerHTTP => health.HTTPCheckURL opts <> ""
     | LayerTCP => (0 < health.TCPPort opts)%Z
     | LayerExec => health.ExecCommand opts <> ""
     end.
Proof.
  unfold statusPasses.
  destruct (Z.ltb_spec 0 (health.TCPPort opts)) as [Hport | Hport];
  destruct (String.eqb_spec (health.HTTPCheckURL opts) "") as [Hurl | Hurl];
  destruct (String.eqb_spec (health.ExecCommand opts) "") as [Hcmd | Hcmd];
  unfold_checks;
  try (apply Z.ltb_lt in Hport as Hport'; rewrite Hport');
  try (apply Z.ltb_ge in Hport as Hport'; rewrite Hport');
  try (apply String.eqb_eq in Hurl as Hurl'; rewrite Hurl');
  try (apply String.eqb_neq in Hurl as Hurl'; rewrite Hurl');
  try (apply String.eqb_eq in Hcmd as Hcmd'; rewrite Hcmd');
  try (apply String.eqb_neq in Hcmd as Hcmd'; rewrite Hcmd');
  destruct (String.eqb (Phase (Status pod)) PodRunning);
  destruct (health.readyConditions (Conditions (Status pod)));
  destruct l;
  repeat (simpl; break_match); simpl; intros Hinv;
    first [discriminate Hinv | split; [reflexivity | assumption]].
Qed.

Lemma IsPodHealthy_invokes_only_configured_witness :
  (0 < health.TCPPort Examples.all_checks)%Z.
Proof.
  apply (IsPodHealthy_invokes_only_configured Examples.world_ok Examples.exec_checker
           Examples.pod_ok Examples.all_checks LayerTCP).
  reflexivity.
Defined.

Lemma conditionsLoop_true (conditions : list PodCondition) :
  health.conditionsLoop conditions = true <->
  forall condition, condition ∈ conditions ->
    Type_ condition = PodReady \/ Type_ condition = PodScheduled ->
    Status_ condition = ConditionTrue.
Proof.
  induction conditions as [|cd rest IH]; simpl.
  - split; [intros _ x Hx; inversion Hx | reflexivity].
  - destruct (String.eqb_spec (Type_ cd) PodReady) as [Hr | Hr];
    destruct (String.eqb_spec (Type_ cd) PodScheduled) as [Hs | Hs];
    destruct (String.eqb_spec (Status_ cd) ConditionTrue) as [Ht | Ht]; simpl;
    try (rewrite IH; split;
         [ intros H x Hx Hty; apply elem_of_cons in Hx as [-> | Hx];
           [first [exact Ht | destruct Hty; contradiction] | now apply H]
         | intros H x Hx; apply H; now apply list_elem_of_further ]);
    (split; [discriminate | intros H; exfalso; apply Ht;
             apply (H cd); [apply list_elem_of_here | auto]]).
Qed.

Lemma containerStatusesLoop_true (statuses : list ContainerStatus) :
  health.containerStatusesLoop statuses = true <->
  forall cs, cs ∈ statuses -> Ready cs = true /\ Waiting (State cs) = None.
Proof.
  split.
  - intros Hloop cs Hcs.
    destruct (Ready cs) eqn:Hr; [destruct (Waiting (State cs)) eqn:Hw|].
    2: now split.
    all: assert (health.containerStatusesLoop statuses = false)
           by (apply containerStatusesLoop_false; exists cs;
               split; [exact Hcs | rewrite ?Hr, ?Hw; eauto]);
         congruence.
  - intros Hall.
    destruct (health.containerStatusesLoop statuses) eqn:E; [reflexivity|].
    apply containerStatusesLoop_false in E as (cs & Hcs & Hbad).
    destruct (Hall cs Hcs) as [Hr Hw]. rewrite Hr, Hw in Hbad.
    destruct Hbad as [Hbad | [x Hbad]]; discriminate.
Qed.

(** [CheckPodStatus] answers [true] exactly when every Ready and every
    PodScheduled condition is True and every container status is ready
    and not waiting. It is the stricter check: a pod it accepts has no
    Ready condition that stops [IsPodHealthy]. *)
Theorem CheckPodStatus_true_iff c pod :
  (health.CheckPodStatus c pod = true <->
   (forall condition, condition ∈ Conditions (Status pod) ->
      Type_ condition = PodReady \/ Type_ condition = PodScheduled ->
      Status_ condition = ConditionTrue)
   /\ (forall cs, cs ∈ ContainerStatuses (Status pod) ->
         Ready cs = true /\ Waiting (State cs) = None))
  /\ (health.CheckPodStatus c pod = true ->
      health.readyConditions (Conditions (Status pod)) = true).
Proof.
  assert (Hiff : health.CheckPodStatus c pod = true <->
                 health.conditionsLoop (Conditions (Status pod)) = true /\
                 health.containerStatusesLoop (ContainerStatuses (Status pod)) = true).
  { unfold health.CheckPodStatus.
    destruct (health.conditionsLoop _), (health.containerStatusesLoop _); simpl;
      intuition discriminate. }
  split.
  - rewrite Hiff, conditionsLoop_true, containerStatusesLoop_true. reflexivity.
  - intros H. apply Hiff in H as [H _].
    destruct (health.readyConditions _) eqn:E; [reflexivity|].
    apply readyConditions_false in E as (x & Hx & Hty & Hst).
    exfalso. apply Hst. apply (proj1 (conditionsLoop_true _) H x Hx). now left.
Qed.

Lemma CheckPodStatus_true_iff_witness :
  health.readyConditions (Conditions (Status Examples.pod_ok)) = true.
Proof.
  apply (CheckPodStatus_true_iff Examples.checker Examples.pod_ok). reflexivity.
Defined.

(** [IsPodHealthyLegacy] is the status checks and the HTTP check alone:
    it never dials and never runs a command, and with an empty path it
    makes no call at all. *)
Theorem IsPodHealthyLegacy_http_only w c pod healthCheckURL :
  invoked LayerTCP (trace (health.IsPodHealthyLegacy w c pod healthCheckURL)) = false
  /\ invoked LayerExec (trace (health.IsPodHealthyLegacy w c pod healthCheckURL)) = false
  /\ (healthCheckURL = "" ->
      health.IsPodHealthyLegacy w c pod healthCheckURL = ((statusPasses pod, None), [])).
Proof.
  unfold health.IsPodHealthyLegacy, statusPasses. split; [|split].
  1, 2: run_checks; reflexivity.
  intros ->. unfold_checks. simpl.
  destruct (String.eqb _ PodRunning); simpl; [|reflexivity].
  destruct (health.readyConditions _); reflexivity.
Qed.

Lemma IsPodHealthyLegacy_http_only_witness :
  health.IsPodHealthyLegacy Examples.world_ok Examples.checker Examples.pod_ok ""
  = ((true, None), []).
Proof.
  apply (IsPodHealthyLegacy_http_only Examples.world_ok Examples.checker
           Examples.pod_ok ""). reflexivity.
Defined.

(** [SetKubernetesClient] changes the exec check only: it keeps the
    timeout and the HTTP client, and for options without an exec command
    the checker answers as before, call for call. *)
Theorem SetKubernetesClient_keeps_other_checks w c client config pod opts :
  health.timeout (health.SetKubernetesClient c client config) = health.timeout c
  /\ health.httpClient (health.SetKubernetesClient c client config) = health.httpClient c
  /\ (health.ExecCommand opts = "" ->
      health.IsPodHealthy w (health.SetKubernetesClient c client config) pod opts
      = health.IsPodHealthy w c pod opts).
Proof.
  split; [reflexivity|]. split; [reflexivity|].
  intros Hcmd. unfold_checks. rewrite Hcmd. reflexivity.
Qed.

Lemma SetKubernetesClient_keeps_other_checks_witness :
  health.IsPodHealthy Examples.world_tcp_closed Examples.exec_checker Examples.pod_ok
    {| health.HTTPCheckURL := "/health"; health.ExecCommand := "";
       health.TCPPort := 8080; health.ContainerName := "";
       health.ExpectedOutput := "" |}
  = health.IsPodHealthy Examples.world_tcp_closed Examples.checker Examples.pod_ok
      {| health.HTTPCheckURL := "/health"; health.ExecCommand := "";
         health.TCPPort := 8080; health.ContainerName := "";
         health.ExpectedOutput := "" |}.
Proof.
  apply (SetKubernetesClient_keeps_other_checks Examples.world_tcp_closed
           Examples.checker tt tt Examples.pod_ok
           {| health.HTTPCheckURL := "/health"; health.ExecCommand := "";
              health.TCPPort := 8080; health.ContainerName := "";
              health.ExpectedOutput := "" |}).
  reflexivity.
Defined.

(** The exec check does not run a command it cannot place: with client
    and configuration at hand, a pod without declared containers ends the
    evaluation with an error, whether or not a container is named, and so
    does an executor that cannot be created; no stream is opened. *)
Theorem IsPodHealthy_exec_not_started w c pod opts :
  Enter LayerExec ∈ trace (health.IsPodHealthy w c pod opts) ->
  is_Some (health.k8sClient c) -> is_Some (health.restConfig c) ->
  (Containers (Spec pod) = [] ->
   value (health.IsPodHealthy w c pod opts)
   = (false, Some (wrapError "exec command check failed"
                     (errorString "pod has no containers")))
   /\ (forall req, ExecStream req ∉ trace (health.IsPodHealthy w c pod opts)))
  /\
  (forall first rest err, Containers (Spec pod) = first :: rest ->
   spdy_NewExecutor w (execRequestOf c pod opts first) = Err err ->
   value (health.IsPodHealthy w c pod opts)
   = (false, Some (wrapError "exec command check failed"
                     (wrapError "failed to create executor" err)))
   /\ (forall req, ExecStream req ∉ trace (health.IsPodHealthy w c pod opts))).
Proof.
  intros Hin [k Hk] [rc Hrc].
  destruct (exec_entered w c pod opts Hin) as (Hcmd & -> & Hstreams).
  apply String.eqb_neq in Hcmd.
  unfold health.execLayer. rewrite Hcmd. simpl. rewrite value_bind.
  split.
  - intros Hnil.
    assert (Hcheck :
      health.checkExecCommand w c pod (health.ExecCommand opts)
        (health.ContainerName opts) (health.ExpectedOutput opts)
      = ((false, Some (errorString "pod has no containers")), [Enter LayerExec])).
    { unfold health.checkExecCommand. rewrite Hk, Hrc, Hnil. reflexivity. }
    rewrite Hcheck. split; [reflexivity|].
    intros req Hreq. apply Hstreams in Hreq. rewrite Hcheck in Hreq.
    refute_in Hreq.
  - intros first rest err Hcs Hex.
    assert (Hcheck :
      health.checkExecCommand w c pod (health.ExecCommand opts)
        (health.ContainerName opts) (health.ExpectedOutput opts)
      = ((false, Some (wrapError "failed to create executor" err)),
         [Enter LayerExec])).
    { unfold health.checkExecCommand. rewrite Hk, Hrc, Hcs.
      fold (execRequestOf c pod opts first). rewrite Hex. reflexivity. }
    rewrite Hcheck. split; [reflexivity|].
    intros req Hreq. apply Hstreams in Hreq. rewrite Hcheck in Hreq.
    refute_in Hreq.
Qed.

(** * Further properties of the reconciler *)

Lemma IsPodHealthy_events w c pod opts e :
  e ∈ trace (health.IsPodHealthy w c pod opts) -> is_Some (layerOf e).
Proof.
  run_checks; intros He;
    repeat (apply elem_of_cons in He as [-> | He]; [eexists; reflexivity|]);
    inversion He.
Qed.

Lemma IsPodHealthy_no_client_call w c pod opts e :
  e ∈ trace (health.IsPodHealthy w c pod opts) -> isClientCall e = false.
Proof.
  intros He. apply IsPodHealthy_events in He as [l Hl].
  destruct e; try discriminate Hl; reflexivity.
Qed.

Lemma matchesFilter_no_delete w r pod e :
  e ∈ trace (matchesFilter w r pod) -> isDelete e = false.
Proof.
  intros He. destruct e; try reflexivity.
  now apply matchesFilter_never_deletes in He.
Qed.

Lemma filter_none {A} (f : A -> bool) (l : list A) :
  (forall x, x ∈ l -> f x = false) -> List.filter f l = [].
Proof.
  induction l as [|a l IH]; intros H; simpl; [reflexivity|].
  rewrite (H a (list_elem_of_here _ _)).
  apply IH. intros x Hx. apply H. now apply list_elem_of_further.
Qed.

(** A pod that is gone when it is fetched ends the reconcile at once:
    the empty result, no error, and no call after the fetch: no filter
    lookup, no health check, no delete. *)
Theorem Reconcile_pod_gone w r req err :
  api_GetPod w (NamespacedName req) = Err err ->
  errors.IsNotFound err = true ->
  Reconcile w r req = ((Result_empty, None), [ClientGetPod (NamespacedName req)]).
Proof.
  intros Hget Hnf. unfold Reconcile. rewrite Hget, Hnf. reflexivity.
Qed.

(** A healthy pod is left alone: the reconcile ends with the empty
    result and no error, and no delete is issued. *)
Theorem Reconcile_healthy_untouched w r req pod :
  api_GetPod w (NamespacedName req) = Ok pod ->
  value (matchesFilter w r pod) = true ->
  value (health.IsPodHealthy w (HealthChecker r) pod (HealthCheckOptions r))
  = (true, None) ->
  value (Reconcile w r req) = (Result_empty, None)
  /\ List.filter isDelete (trace (Reconcile w r req)) = [].
Proof.
  intros Hget Hm Hh. unfold Reconcile. rewrite Hget.
  pose proof (matchesFilter_no_delete w r pod) as Hnm.
  pose proof (IsPodHealthy_no_client_call w (HealthChecker r) pod
                (HealthCheckOptions r)) as Hnh.
  destruct (matchesFilter w r pod) as [m tm].
  destruct (health.IsPodHealthy _ _ _ _) as [v th].
  simpl in *. subst m v. simpl. split; [reflexivity|].
  assert (Hth : List.filter isDelete th = []).
  { apply filter_none. intros x Hx. apply Hnh in Hx.
    destruct x; try reflexivity; discriminate Hx. }
  rewrite ?List.filter_app; simpl; rewrite ?List.filter_app; simpl.
  rewrite (filter_none isDelete tm Hnm), Hth. reflexivity.
Qed.

(** What a reconcile can answer: the empty result or the request to come
    back in ten seconds, each with no error, or, only when the fetch of
    the pod fails with something other than NotFound, the empty result
    with that error wrapped. The [Requeue] flag is never set. *)
Theorem Reconcile_outcomes w r req :
  value (Reconcile w r req) = (Result_empty, None)
  \/ value (Reconcile w r req) = (requeue_after_10s, None)
  \/ (exists err, api_GetPod w (NamespacedName req) = Err err
        /\ errors.IsNotFound err = false
        /\ value (Reconcile w r req)
           = (Result_empty, Some (wrapError "failed to get pod" err))).
Proof.
  unfold Reconcile.
  destruct (api_GetPod w (NamespacedName req)) as [pod | err] eqn:Hget.
  - destruct (matchesFilter w r pod) as [[|] tm];
    destruct (health.IsPodHealthy _ _ _ _) as [[[|] [e|]] th];
    destruct (negb (health.CheckPodStatus (HealthChecker r) pod));
    destruct (api_Delete w pod) as [e'|];
    try destruct (errors.IsNotFound e');
    simpl; auto.
  - destruct (errors.IsNotFound err) eqn:Hnf; simpl; [auto|].
    right. right. exists err. auto.
Qed.

(** A delete is issued only for the pod that was fetched, and only when
    it matched the filter and was found unhealthy without an error. *)
Theorem Reconcile_deletes_only_unhealthy w r req namespace name :
  ClientDelete namespace name ∈ trace (Reconcile w r req) ->
  exists pod,
    api_GetPod w (NamespacedName req) = Ok pod
    /\ namespace = corev1.Namespace pod /\ name = Name pod
    /\ value (matchesFilter w r pod) = true
    /\ value (health.IsPodHealthy w (HealthChecker r) pod (HealthCheckOptions r))
       = (false, None).
Proof.
  unfold Reconcile.
  destruct (api_GetPod w (NamespacedName req)) as [pod | err] eqn:Hget.
  - pose proof (matchesFilter_no_delete w r pod) as Hnm.
    pose proof (IsPodHealthy_no_client_call w (HealthChecker r) pod
                  (HealthCheckOptions r)) as Hnh.
    intros Hin. exists pod.
    destruct (matchesFilter w r pod) as [m tm].
    destruct (health.IsPodHealthy _ _ _ _) as [[h e] th].
    assert (Htm : ClientDelete namespace name ∉ tm)
      by (intros H; apply Hnm in H; discriminate H).
    assert (Hth : ClientDelete namespace name ∉ th)
      by (intros H; apply Hnh in H; discriminate H).
    simpl in *.
    destruct m, h, e as [e|]; simpl in Hin;
      try destruct (negb (health.CheckPodStatus (HealthChecker r) pod));
      try destruct (api_Delete w pod) as [e'|];
      try destruct (errors.IsNotFound e');
      simpl in Hin;
      rewrite ?elem_of_cons, ?elem_of_app, ?elem_of_cons, ?elem_of_nil in Hin;
      repeat match goal with
             | H : _ \/ _ |- _ => destruct H as [H | H]
             | H : ClientDelete _ _ = ClientDelete _ _ |- _ => injection H as -> ->
             | H : ClientDelete _ _ = _ |- _ => discriminate H
             | H : False |- _ => destruct H
             | H : _ ∈ tm |- _ => destruct (Htm H)
             | H : _ ∈ th |- _ => destruct (Hth H)
             | H : _ ∈ _ ++ _ |- _ => apply elem_of_app in H
             | H : _ ∈ _ :: _ |- _ => apply elem_of_cons in H
             | H : _ ∈ [] |- _ => inversion H
             end;
      auto.
  - destruct (errors.IsNotFound err); simpl; intros Hin; exfalso; refute_in Hin.
Qed.

(** A reconcile deletes at most once, and exactly once when the pod
    matched and was found unhealthy. *)
Theorem Reconcile_deletes_once w r req :
  length (List.filter isDelete (trace (Reconcile w r req))) <= 1
  /\ (forall pod, api_GetPod w (NamespacedName req) = Ok pod ->
       value (matchesFilter w r pod) = true ->
       value (health.IsPodHealthy w (HealthChecker r) pod (HealthCheckOptions r))
       = (false, None) ->
       List.filter isDelete (trace (Reconcile w r req))
       = [ClientDelete (corev1.Namespace pod) (Name pod)]).
Proof.
  unfold Reconcile.
  destruct (api_GetPod w (NamespacedName req)) as [pod | err] eqn:Hget.
  - pose proof (matchesFilter_no_delete w r pod) as Hnm.
    pose proof (IsPodHealthy_no_client_call w (HealthChecker r) pod
                  (HealthCheckOptions r)) as Hnh.
    assert (Hnh' : forall x,
              x ∈ trace (health.IsPodHealthy w (HealthChecker r) pod
                           (HealthCheckOptions r)) -> isDelete x = false).
    { intros x Hx. apply Hnh in Hx. destruct x; try reflexivity; discriminate Hx. }
    clear Hnh.
    apply filter_none in Hnm. apply filter_none in Hnh'.
    split.
    + destruct (matchesFilter w r pod) as [m tm].
      destruct (health.IsPodHealthy _ _ _ _) as [[h e] th].
      simpl in Hnm, Hnh'.
      destruct m, h, e as [e|]; simpl;
        try destruct (negb (health.CheckPodStatus (HealthChecker r) pod));
        try destruct (api_Delete w pod) as [e'|];
        try destruct (errors.IsNotFound e');
        simpl; rewrite ?List.filter_app; simpl;
        rewrite ?List.filter_app; simpl; rewrite ?Hnm, ?Hnh'; simpl; lia.
    + intros pod' [= <-] Hm Hh.
      destruct (matchesFilter w r pod) as [m tm].
      destruct (health.IsPodHealthy _ _ _ _) as [[h e] th].
      simpl in Hnm, Hnh', Hm, Hh. subst m. injection Hh as -> ->.
      simpl.
      destruct (negb (health.CheckPodStatus (HealthChecker r) pod));
        destruct (api_Delete w pod) as [e'|];
        try destruct (errors.IsNotFound e');
        simpl; rewrite ?List.filter_app; simpl;
        rewrite ?List.filter_app; simpl; rewrite ?Hnm, ?Hnh'; reflexivity.
  - split; [|discriminate].
    destruct (errors.IsNotFound err); simpl; lia.
Qed.

Lemma IsPodHealthy_exec_not_started_witness :
  value (health.IsPodHealthy Examples.world_ok Examples.exec_checker
           Scenarios.pod_no_containers (Examples.exec_only "true" "router" ""))
  = (false, Some (wrapError "exec command check failed"
                    (errorString "pod has no containers")))
  /\ value (health.IsPodHealthy Scenarios.world_no_executor Examples.exec_checker
              Examples.pod_ok (Examples.exec_only "true" "" ""))
     = (false, Some (wrapError "exec command check failed"
                       (wrapError "failed to create executor"
                          (errorString "unable to upgrade connection")))).
Proof.
  split.
  - destruct (IsPodHealthy_exec_not_started Examples.world_ok Examples.exec_checker
                Scenarios.pod_no_containers (Examples.exec_only "true" "router" ""))
      as (Hnone & _);
      [vm_compute; constructor | eexists; reflexivity | eexists; reflexivity |].
    apply Hnone. reflexivity.
  - destruct (IsPodHealthy_exec_not_started Scenarios.world_no_executor
                Examples.exec_checker Examples.pod_ok (Examples.exec_only "true" "" ""))
      as (_ & Hexec);
      [vm_compute; constructor | eexists; reflexivity | eexists; reflexivity |].
    apply (Hexec {| Container_Name := "router" |} [{| Container_Name := "sidecar" |}]
             (errorString "unable to upgrade connection")); reflexivity.
Defined.

Lemma Reconcile_pod_gone_witness :
  Reconcile Scenarios.world_pod_gone
    (Examples.reconciler "druid-router" "app=router" Examples.all_checks)
    Examples.request
  = ((Result_empty, None), [ClientGetPod (NamespacedName Examples.request)]).
Proof.
  apply (Reconcile_pod_gone Scenarios.world_pod_gone
           (Examples.reconciler "druid-router" "app=router" Examples.all_checks)
           Examples.request Examples.not_found); reflexivity.
Defined.

Lemma Reconcile_healthy_untouched_witness :
  value (Reconcile Examples.world_ok
           (Examples.reconciler "druid-router" "app=router" Examples.all_checks)
           Examples.request) = (Result_empty, None).
Proof.
  apply (Reconcile_healthy_untouched Examples.world_ok
           (Examples.reconciler "druid-router" "app=router" Examples.all_checks)
           Examples.request Examples.pod_ok);
    [reflexivity | vm_compute; reflexivity | vm_compute; reflexivity].
Defined.

Lemma Reconcile_deletes_only_unhealthy_witness :
  exists pod,
    api_GetPod Examples.world_delete_gone (NamespacedName Examples.request) = Ok pod
    /\ "druid" = corev1.Namespace pod /\ "router-0" = Name pod
    /\ value (matchesFilter Examples.world_delete_gone
                (Examples.reconciler "druid-router" "" Examples.no_checks) pod) = true
    /\ value (health.IsPodHealthy Examples.world_delete_gone
                (HealthChecker (Examples.reconciler "druid-router" "" Examples.no_checks))
                pod
                (HealthCheckOptions
                   (Examples.reconciler "druid-router" "" Examples.no_checks)))
       = (false, None).
Proof.
  apply (Reconcile_deletes_only_unhealthy Examples.world_delete_gone
           (Examples.reconciler "druid-router" "" Examples.no_checks)
           Examples.request "druid" "router-0").
  vm_compute. do 5 apply list_elem_of_further. apply list_elem_of_here.
Defined.

Lemma Reconcile_deletes_once_witness :
  List.filter isDelete
    (trace (Reconcile Examples.world_delete_fails
              (Examples.reconciler "druid-router" "" Examples.no_checks)
              Examples.request))
  = [ClientDelete "druid" "router-0"].
Proof.
  destruct (Reconcile_deletes_once Examples.world_delete_fails
              (Examples.reconciler "druid-router" "" Examples.no_checks)
              Examples.request) as (_ & Hone).
  apply (Hone Examples.pod_not_ready);
    [reflexivity | vm_compute; reflexivity | reflexivity].
Defined.

(** * Further properties of the filter *)

(** Membership in the stateful set is a matter of labels only: the pod
    belongs exactly when the set is fetched, has a selector, the selector
    converts, and it matches the labels of the pod. Nothing else of the
    pod is read, so two pods with the same labels get the same answer of
    [matchesFilter], lookup for lookup. *)
Theorem belongsToStatefulSet_by_labels w r pod :
  (value (belongsToStatefulSet w r pod) = true <->
   exists set ls selector,
     api_GetStatefulSet w
       {| types.Namespace := Namespace r; types.Name := StatefulSetName r |} = Ok set
     /\ appsv1.Spec_Selector set = Some ls
     /\ metav1_LabelSelectorAsSelector w ls = Ok selector
     /\ labels.Matches selector (Labels pod) = true)
  /\ (forall pod', Labels pod' = Labels pod ->
        matchesFilter w r pod' = matchesFilter w r pod).
Proof.
  split.
  - unfold belongsToStatefulSet. rewrite bind_emit. unfold value at 1. simpl.
    destruct (api_GetStatefulSet w _) as [set | err] eqn:Hget; simpl.
    + destruct (appsv1.Spec_Selector set) as [ls|] eqn:Hsel; simpl.
      * destruct (metav1_LabelSelectorAsSelector w ls) as [selector | err] eqn:Hconv;
          simpl.
        -- split; [intros Hm; exists set, ls, selector; auto|].
           intros (set' & ls' & sel' & Hs & Hl & Hc & Hm).
           injection Hs as <-. rewrite Hsel in Hl. injection Hl as <-.
           rewrite Hconv in Hc. injection Hc as <-. exact Hm.
        -- split; [discriminate|].
           intros (set' & ls' & sel' & Hs & Hl & Hc & _).
           injection Hs as <-. rewrite Hsel in Hl. injection Hl as <-.
           rewrite Hconv in Hc. discriminate Hc.
      * split; [discriminate|].
        intros (set' & ls' & sel' & Hs & Hl & _).
        injection Hs as <-. rewrite Hsel in Hl. discriminate Hl.
    + split; [discriminate|]. intros (set' & ls' & sel' & Hs & _). discriminate Hs.
  - intros pod' Hl.
    unfold matchesFilter, matchesLabelSelector, belongsToStatefulSet.
    rewrite Hl. reflexivity.
Qed.

Lemma belongsToStatefulSet_by_labels_witness :
  matchesFilter Examples.world_ok
    (Examples.reconciler "druid-router" "app=router" Examples.no_checks)
    Scenarios.pod_stranger
  = matchesFilter Examples.world_ok
      (Examples.reconciler "druid-router" "app=router" Examples.no_checks)
      Examples.pod_ok.
Proof.
  apply (belongsToStatefulSet_by_labels Examples.world_ok
           (Examples.reconciler "druid-router" "app=router" Examples.no_checks)
           Examples.pod_ok).
  reflexivity.
Defined.



(** The only call [matchesFilter] makes outside the process is one fetch
    of the stateful set named in the configuration, in the configured
    namespace, and it makes none when no stateful set is named. *)
Theorem matchesFilter_single_lookup w r pod :
  List.filter isClientCall (trace (matchesFilter w r pod))
  = if String.eqb (StatefulSetName r) "" then []
    else [ClientGetStatefulSet
            {| types.Namespace := Namespace r; types.Name := StatefulSetName r |}].
Proof.
  unfold matchesFilter, matchesLabelSelector, belongsToStatefulSet.
  destruct (String.eqb (StatefulSetName r) ""); repeat (simpl; break_match);
    reflexivity.
Qed.

(** * [SetupWithManager] *)

Lemma Forall_two {A} (P : A -> Prop) (x y : A) : Forall P [x; y] <-> P x /\ P y.
Proof.
  split.
  - intros H. inversion H as [|? ? Hx H']; subst.
    inversion H' as [|? ? Hy _]; subst. now split.
  - intros [Hx Hy]. repeat constructor; assumption.
Qed.

Lemma Forall_one {A} (P : A -> Prop) (x : A) : Forall P [x] <-> P x.
Proof.
  split; [intros H; now inversion H | intros Hx; repeat constructor; assumption].
Qed.

(** [SetupWithManager] fails before the builder is called exactly when a
    label selector is configured that does not parse. Otherwise the
    controller is built for one reconcile at a time, and an object passes
    every registered predicate exactly when it lies in the configured
    namespace and, if a selector is configured, is a pod whose labels the
    selector matches. *)
Theorem SetupWithManager_predicates w r :
  (forall complete err,
     PodLabelSelector r <> "" -> labels_Parse w (PodLabelSelector r) = Err err ->
     SetupWithManager w r complete
     = Some (wrapError "failed to parse pod label selector" err))
  /\
  (forall spec, controllerSpec w r = Ok spec ->
     MaxConcurrentReconciles (options spec) = 1%Z
     /\ (forall complete, SetupWithManager w r complete = complete spec)
     /\ (forall obj,
           Forall (fun p => p obj = true) (predicates spec) <->
           GetNamespace obj = Namespace r
           /\ (PodLabelSelector r = "" \/
               exists selector pod,
                 labels_Parse w (PodLabelSelector r) = Ok selector
                 /\ obj = PodObject pod
                 /\ labels.Matches selector (Labels pod) = true))).
Proof.
  unfold SetupWithManager, controllerSpec. split.
  - intros complete err Hsel Hparse. apply String.eqb_neq in Hsel.
    rewrite Hsel, Hparse. reflexivity.
  - intros spec.
    destruct (String.eqb_spec (PodLabelSelector r) "") as [Hoff | Hon]; simpl.
    + intros [= <-]. simpl. split; [reflexivity|]. split; [reflexivity|].
      intros obj. rewrite Forall_one. unfold namespacePredicate.
      rewrite String.eqb_eq. split; [intros H; split; [exact H | now left] | now intros [H _]].
    + destruct (labels_Parse w (PodLabelSelector r)) as [selector | err];
        [|discriminate].
      intros [= <-]. simpl. split; [reflexivity|]. split; [reflexivity|].
      intros obj. rewrite Forall_two. unfold namespacePredicate, labelPredicate.
      rewrite String.eqb_eq. split.
      * intros [Hns Hl]. split; [exact Hns|]. right.
        destruct obj as [pod | set]; [|discriminate Hl].
        now exists selector, pod.
      * intros [Hns [Hempty | (sel' & pod & [= <-] & -> & Hm)]];
          [contradiction | now split].
Qed.

Lemma SetupWithManager_predicates_witness :
  SetupWithManager Examples.world_ok
    (Examples.reconciler "" "app in (" Examples.no_checks) (fun _ => None)
  = Some (wrapError "failed to parse pod label selector"
            (errorString "unable to parse requirement"))
  /\ (Forall (fun p => p (Scenarios.pod_object "druid" {[ "app" := "router" ]}) = true)
        [namespacePredicate (Examples.reconciler "" "app=router" Examples.no_checks);
         labelPredicate [labels.EqualityTerm "app" "router"]] <->
      GetNamespace (Scenarios.pod_object "druid" {[ "app" := "router" ]}) = "druid"
      /\ ("app=router" = "" \/
          exists selector pod,
            labels_Parse Examples.world_ok "app=router" = Ok selector
            /\ Scenarios.pod_object "druid" {[ "app" := "router" ]} = PodObject pod
            /\ labels.Matches selector (Labels pod) = true)).
Proof.
  split.
  - destruct (SetupWithManager_predicates Examples.world_ok
                (Examples.reconciler "" "app in (" Examples.no_checks)) as (Hfail & _).
    apply Hfail; [discriminate | reflexivity].
  - destruct (SetupWithManager_predicates Examples.world_ok
                (Examples.reconciler "" "app=router" Examples.no_checks)) as (_ & Hok).
    destruct (Hok _ eq_refl) as (_ & _ & Hpred).
    exact (Hpred (Scenarios.pod_object "druid" {[ "app" := "router" ]})).
Defined.

(** After a successful set-up the label check of the reconcile agrees
    with the predicates: a pod passes every registered predicate exactly
    when it lies in the configured namespace and [matchesFilter]'s label
    check accepts it, and that check never fails to parse. *)
Theorem SetupWithManager_agrees_with_filter w r spec pod :
  controllerSpec w r = Ok spec ->
  (Forall (fun p => p (PodObject pod) = true) (predicates spec) <->
   corev1.Namespace pod = Namespace r /\ value (matchesLabelSelector w r pod) = true)
  /\ trace (matchesLabelSelector w r pod) = [].
Proof.
  unfold controllerSpec, matchesLabelSelector.
  destruct (String.eqb_spec (PodLabelSelector r) "") as [Hoff | Hon]; simpl.
  - intros [= <-]. simpl. split; [|reflexivity].
    rewrite Forall_one. unfold namespacePredicate. rewrite String.eqb_eq. simpl.
    split; [intros H; now split | now intros [H _]].
  - destruct (labels_Parse w (PodLabelSelector r)) as [selector | err]; [|discriminate].
    intros [= <-]. simpl.
    split; [|destruct (negb (labels.Matches selector (Labels pod))); reflexivity].
    rewrite Forall_two. unfold namespacePredicate, labelPredicate.
    rewrite String.eqb_eq. simpl.
    destruct (labels.Matches selector (Labels pod)); simpl; tauto.
Qed.

Lemma SetupWithManager_agrees_with_filter_witness :
  trace (matchesLabelSelector Examples.world_ok
           (Examples.reconciler "" "app=router" Examples.no_checks)
           Scenarios.pod_frontend) = [].
Proof.
  apply (SetupWithManager_agrees_with_filter Examples.world_ok
           (Examples.reconciler "" "app=router" Examples.no_checks)
           _ Scenarios.pod_frontend eq_refl).
Defined.

(** * Start-up *)

Lemma main_started w s flags r code :
  main.main w s flags = main.Started r code ->
  r = reconcilerOf flags
  /\ (main.statefulSetName flags <> "" \/ main.podLabelSelector flags <> "")
  /\ main.GetConfigOrDie s = Some tt
  /\ main.NewManager s = Ok tt
  /\ (main.execCheckCommand flags <> "" -> main.NewForConfig s = Ok tt)
  /\ SetupWithManager w r (main.Complete s) = None
  /\ code = match main.Start s with Some _ => 1%Z | None => 0%Z end.
Proof.
  unfold main.main, reconcilerOf, checkerOf.
  destruct (String.eqb_spec (main.statefulSetName flags) "") as [Hs | Hs];
  destruct (String.eqb_spec (main.podLabelSelector flags) "") as [Hl | Hl]; simpl;
    try discriminate;
    (destruct (main.GetConfigOrDie s) as [[]|]; [|discriminate]);
    (destruct (main.NewManager s) as [[]|]; [|discriminate]);
    (destruct (String.eqb_spec (main.execCheckCommand flags) "") as [Hc | Hc]; simpl;
     [|destruct (main.NewForConfig s) as [[]|]; [|discriminate]]);
    (destruct (SetupWithManager w _ (main.Complete s)) eqn:Hsetup; [discriminate|]);
    destruct (main.Start s); intros [= <- <-];
    repeat split; auto; contradiction.
Qed.

Lemma getEnv_unset env key defaultValue :
  unsetOrEmpty env key -> main.getEnv env key defaultValue = defaultValue.
Proof.
  unfold main.getEnv, main.Getenv. intros [-> | ->]; reflexivity.
Qed.

(** Without a filter [main] does not start: when neither a stateful set
    nor a label selector is given it exits with code 1 whatever the
    cluster answers, and this is the case for the defaults of the flags
    whenever both environment variables are unset or empty. The filter
    such a configuration would give accepts every pod without a lookup. *)
Theorem main_requires_filter w s :
  (forall flags, main.statefulSetName flags = "" -> main.podLabelSelector flags = "" ->
     main.main w s flags = main.Exit 1)
  /\ (forall env ParseDuration Atoi,
        unsetOrEmpty env "STATEFULSET_NAME" -> unsetOrEmpty env "POD_LABEL_SELECTOR" ->
        main.main w s (main.flagDefaults env ParseDuration Atoi) = main.Exit 1)
  /\ (forall r pod, StatefulSetName r = "" -> PodLabelSelector r = "" ->
        matchesFilter w r pod = (true, [])).
Proof.
  assert (Hexit : forall flags,
            main.statefulSetName flags = "" -> main.podLabelSelector flags = "" ->
            main.main w s flags = main.Exit 1).
  { intros flags Hs Hl. unfold main.main. rewrite Hs, Hl. reflexivity. }
  split; [exact Hexit|]. split.
  - intros env PD Atoi Hs Hl. apply Hexit; simpl; now apply getEnv_unset.
  - intros r pod Hs Hl. unfold matchesFilter, matchesLabelSelector.
    rewrite Hs, Hl. reflexivity.
Qed.

Lemma main_requires_filter_witness :
  main.main Examples.world_ok Scenarios.startup_ok
    (main.flagDefaults {[ "NAMESPACE" := "druid"; "STATEFULSET_NAME" := "" ]}
       Scenarios.parseDuration Scenarios.atoi)
  = main.Exit 1.
Proof.
  destruct (main_requires_filter Examples.world_ok Scenarios.startup_ok)
    as (_ & Henv & _).
  apply Henv; [right; reflexivity | left; reflexivity].
Defined.

(** When [main] starts the manager, the reconciler it runs carries the
    values of the flags, has a filter, a label selector that parses, a
    checker with the configured timeout, and a Kubernetes client exactly
    when an exec command is given; [main] ends with code 0 exactly when
    the manager stops without error. *)
Theorem main_started_reconciler w s flags r code :
  main.main w s flags = main.Started r code ->
  r = reconcilerOf flags
  /\ (StatefulSetName r <> "" \/ PodLabelSelector r <> "")
  /\ (exists spec, controllerSpec w r = Ok spec /\ main.Complete s spec = None)
  /\ health.timeout (HealthChecker r) = main.healthCheckTimeout flags
  /\ (is_Some (health.k8sClient (HealthChecker r)) <->
      health.ExecCommand (HealthCheckOptions r) <> "")
  /\ (is_Some (health.restConfig (HealthChecker r)) <->
      health.ExecCommand (HealthCheckOptions r) <> "")
  /\ (code = 0%Z <-> main.Start s = None).
Proof.
  intros Hmain.
  destruct (main_started w s flags r code Hmain)
    as (-> & Hfilter & _ & _ & _ & Hsetup & ->).
  split; [reflexivity|]. split; [exact Hfilter|]. split; [|split; [|split; [|split]]].
  - unfold SetupWithManager in Hsetup.
    destruct (controllerSpec w (reconcilerOf flags)) as [spec | err];
      [now exists spec | discriminate].
  - unfold reconcilerOf, checkerOf. simpl.
    destruct (negb (String.eqb (main.execCheckCommand flags) "")); reflexivity.
  - unfold reconcilerOf, checkerOf. simpl.
    destruct (String.eqb_spec (main.execCheckCommand flags) "") as [Hc | Hc]; simpl.
    + split; [intros [x Hx]; discriminate Hx | contradiction].
    + split; [intros _; exact Hc | eauto].
  - unfold reconcilerOf, checkerOf. simpl.
    destruct (String.eqb_spec (main.execCheckCommand flags) "") as [Hc | Hc]; simpl.
    + split; [intros [x Hx]; discriminate Hx | contradiction].
    + split; [intros _; exact Hc | eauto].
  - destruct (main.Start s); split; intros H; congruence.
Qed.

Lemma main_started_reconciler_witness :
  health.timeout (HealthChecker (reconcilerOf
                    (Scenarios.flags "druid-router" "app=router" "ps aux")))
  = (5 * second)%Z.
Proof.
  apply (main_started_reconciler Examples.world_ok Scenarios.startup_ok
           (Scenarios.flags "druid-router" "app=router" "ps aux")
           (reconcilerOf (Scenarios.flags "druid-router" "app=router" "ps aux")) 0).
  reflexivity.
Defined.

(** Once [flag.Parse] has returned the values of the flags, [main]
    exits before the manager is started, always with code 1, exactly when
    no filter is given, or the cluster configuration cannot be loaded, or
    the manager cannot be created, or an exec command is given and no
    client set can be made, or [SetupWithManager] fails. *)
Theorem main_fatal_startup w s flags :
  (forall code, main.main w s flags = main.Exit code -> code = 1%Z)
  /\ (main.main w s flags = main.Exit 1 <->
      (main.statefulSetName flags = "" /\ main.podLabelSelector flags = "")
      \/ main.GetConfigOrDie s = None
      \/ (exists err, main.NewManager s = Err err)
      \/ (main.execCheckCommand flags <> "" /\ exists err, main.NewForConfig s = Err err)
      \/ (exists err,
            SetupWithManager w (reconcilerOf flags) (main.Complete s) = Some err)).
Proof.
  unfold main.main, reconcilerOf, checkerOf.
  destruct (String.eqb_spec (main.statefulSetName flags) "") as [Hs | Hs];
  destruct (String.eqb_spec (main.podLabelSelector flags) "") as [Hl | Hl]; simpl;
    try (split; [intros code [= <-]; reflexivity | split; [intros _; now left | reflexivity]]);
    (destruct (main.GetConfigOrDie s) as [[]|];
     [|split; [intros code [= <-]; reflexivity
              | split; [intros _; right; now left | reflexivity]]]);
    (destruct (main.NewManager s) as [[]|e1];
     [|split; [intros code [= <-]; reflexivity
              | split; [intros _; do 2 right; left; now exists e1 | reflexivity]]]);
    (destruct (String.eqb_spec (main.execCheckCommand flags) "") as [Hc | Hc]; simpl;
     [|destruct (main.NewForConfig s) as [[]|e2];
       [|split; [intros code [= <-]; reflexivity
                | split; [intros _; do 3 right; left; split; [exact Hc | now exists e2]
                         | reflexivity]]]]);
    (destruct (SetupWithManager w _ (main.Complete s)) as [e3|];
     [split; [intros code [= <-]; reflexivity
             | split; [intros _; do 4 right; now exists e3 | reflexivity]]|]);
    (split; [destruct (main.Start s); discriminate|]);
    (split; [destruct (main.Start s); discriminate|]);
    intros [[H1 H2] | [H | [[e H] | [[H1 [e H]] | [e H]]]]];
    try contradiction; try discriminate.
Qed.

Lemma main_fatal_startup_witness :
  main.main Examples.world_ok Scenarios.startup_ok
    (Scenarios.flags "" "app in (" "") = main.Exit 1.
Proof.
  destruct (main_fatal_startup Examples.world_ok Scenarios.startup_ok
              (Scenarios.flags "" "app in (" "")) as (_ & Hexit).
  apply Hexit. do 4 right.
  exists (wrapError "failed to parse pod label selector"
            (errorString "unable to parse requirement")).
  reflexivity.
Defined.

(** The reconciler that [main] starts cannot run into its own
    configuration: no health evaluation ends with the error of a missing
    Kubernetes client, and no filter decision logs a label selector that
    does not parse. *)
Theorem main_reconciler_well_configured w s flags r code pod :
  main.main w s flags = main.Started r code ->
  (forall e,
     snd (value (health.IsPodHealthy w (HealthChecker r) pod (HealthCheckOptions r)))
     = Some e ->
     e <> wrapError "exec command check failed"
            (errorString "kubernetes client not configured for exec checks"))
  /\ (forall err,
        LogError err "Failed to parse pod label selector"
        ∉ trace (matchesFilter w r pod)).
Proof.
  intros Hmain.
  destruct (main_started w s flags r code Hmain)
    as (-> & _ & _ & _ & _ & Hsetup & _).
  split.
  - intros e He.
    apply IsPodHealthy_error_from_check in He
      as [_ [(_ & inner & _ & ->) | [(_ & inner & _ & ->) | (Hon & inner & Hin & ->)]]];
      try discriminate.
    apply checkExecCommand_error in Hin
      as [[Hnone _] | [[_ ->] | (first & rest & err & _ & _ & ->)]];
      try discriminate.
    exfalso. simpl in Hon, Hnone. unfold checkerOf in Hnone.
    apply String.eqb_neq in Hon. rewrite Hon in Hnone.
    destruct Hnone as [Hnone | Hnone]; discriminate Hnone.
  - intros err.
    unfold SetupWithManager, controllerSpec in Hsetup.
    unfold matchesFilter, matchesLabelSelector, belongsToStatefulSet.
    destruct (negb (String.eqb (PodLabelSelector (reconcilerOf flags)) ""));
      [destruct (labels_Parse w (PodLabelSelector (reconcilerOf flags)));
       [|discriminate Hsetup]|];
      repeat (simpl; break_match); simpl; intros Hin; refute_in Hin.
Qed.

Lemma main_reconciler_well_configured_witness :
  LogError (errorString "unable to parse requirement")
    "Failed to parse pod label selector"
  ∉ trace (matchesFilter Examples.world_ok
             (reconcilerOf (Scenarios.flags "druid-router" "app=router" "ps aux"))
             Examples.pod_ok).
Proof.
  destruct (main_reconciler_well_configured Examples.world_ok Scenarios.startup_ok
              (Scenarios.flags "druid-router" "app=router" "ps aux")
              (reconcilerOf (Scenarios.flags "druid-router" "app=router" "ps aux")) 0
              Examples.pod_ok) as (_ & Hlog); [reflexivity|].
  exact (Hlog (errorString "unable to parse requirement")).
Defined.

Lemma tcp_disabled_silent w c pod opts :
  (health.TCPPort opts <= 0)%Z ->
  invoked LayerTCP (trace (health.IsPodHealthy w c pod opts)) = false.
Proof.
  intros Hport. apply Z.ltb_ge in Hport.
  unfold_checks. rewrite Hport.
  repeat (simpl; break_match); reflexivity.
Qed.

(** The defaults of the flags never fail on a bad environment: a
    [TCP_CHECK_PORT] that is no number becomes port 0, and the reconciler
    started with it never dials; a [HEALTH_CHECK_TIMEOUT] that is no
    duration becomes five seconds; a variable that is unset or empty
    gives the built-in default. *)
Theorem flagDefaults_fall_back w s env ParseDuration Atoi :
  (forall e r code pod,
     Atoi (main.getEnv env "TCP_CHECK_PORT" "0") = Err e ->
     main.main w s (main.flagDefaults env ParseDuration Atoi) = main.Started r code ->
     health.TCPPort (HealthCheckOptions r) = 0%Z
     /\ invoked LayerTCP
          (trace (health.IsPodHealthy w (HealthChecker r) pod (HealthCheckOptions r)))
        = false)
  /\ (forall e,
        ParseDuration (main.getEnv env "HEALTH_CHECK_TIMEOUT" "5s") = Err e ->
        health.timeout (checkerOf (main.flagDefaults env ParseDuration Atoi))
        = 5000000000%Z)
  /\ (unsetOrEmpty env "NAMESPACE" ->
      main.namespace (main.flagDefaults env ParseDuration Atoi) = "default")
  /\ (unsetOrEmpty env "HEALTH_CHECK_URL" -> unsetOrEmpty env "EXEC_CHECK_COMMAND" ->
      main.healthCheckURL (main.flagDefaults env ParseDuration Atoi) = ""
      /\ main.execCheckCommand (main.flagDefaults env ParseDuration Atoi) = "").
Proof.
  split; [|split; [|split]].
  - intros e r code pod Hatoi Hmain.
    destruct (main_started w s _ r code Hmain) as (-> & _).
    assert (Hport : main.tcpCheckPort (main.flagDefaults env ParseDuration Atoi) = 0%Z).
    { simpl. unfold main.mustParseInt. rewrite Hatoi.
      destruct (String.eqb _ ""); reflexivity. }
    split; [exact Hport|].
    apply tcp_disabled_silent. simpl in Hport |- *. rewrite Hport. lia.
  - intros e Hpd. unfold checkerOf. simpl.
    unfold main.mustParseDuration. rewrite Hpd.
    destruct (negb (String.eqb _ "")); reflexivity.
  - intros Hns. simpl. now apply getEnv_unset.
  - intros Hurl Hcmd. simpl. split; now apply getEnv_unset.
Qed.

Lemma flagDefaults_fall_back_witness :
  health.timeout
    (checkerOf (main.flagDefaults {[ "HEALTH_CHECK_TIMEOUT" := "soon" ]}
                  Scenarios.parseDuration Scenarios.atoi)) = 5000000000%Z
  /\ health.TCPPort
       (HealthCheckOptions
          (reconcilerOf
             (main.flagDefaults
                {[ "STATEFULSET_NAME" := "druid-router"; "TCP_CHECK_PORT" := "http" ]}
                Scenarios.parseDuration Scenarios.atoi))) = 0%Z.
Proof.
  split.
  - destruct (flagDefaults_fall_back Examples.world_ok Scenarios.startup_ok
                {[ "HEALTH_CHECK_TIMEOUT" := "soon" ]}
                Scenarios.parseDuration Scenarios.atoi) as (_ & Htimeout & _).
    apply (Htimeout (errorString "invalid duration")). reflexivity.
  - destruct (flagDefaults_fall_back Examples.world_ok Scenarios.startup_ok
                {[ "STATEFULSET_NAME" := "druid-router"; "TCP_CHECK_PORT" := "http" ]}
                Scenarios.parseDuration Scenarios.atoi) as (Hport & _).
    apply (Hport (errorString "invalid syntax") _ 0%Z Examples.pod_ok);
      [reflexivity | vm_compute; reflexivity].
Defined.

Lemma IsPodHealthy_healthy_iff_witness :
  statusPasses Examples.pod_ok = true
  /\ tcpPasses Examples.world_ok Examples.exec_checker Examples.pod_ok
       Examples.all_checks.
Proof.
  destruct (proj1 (IsPodHealthy_healthy_iff Examples.world_ok Examples.exec_checker
                     Examples.pod_ok Examples.all_checks))
    as (Hstatus & _ & Htcp & _); [reflexivity|].
  split; [exact Hstatus | exact Htcp].
Defined.
